(** * Merge layers of Lasagne: [lasagne/layers/merge.py]

    A shallow embedding of [ConcatLayer] and [ElemwiseSumLayer] and the
    properties their specification states about them.

    Shapes are Python tuples of integers, modelled as [list Z].  Python's
    exceptions are an explicit error type; indexing follows Python's rule
    that a negative index counts from the end of the sequence.  Tensors are
    objects of a store, so that the augmented assignments of
    [ElemwiseSumLayer.get_output_for] keep their meaning: rebinding a local
    name, or overwriting an object the caller still holds. *)

From Stdlib Require Import String DecimalString ZArith List Bool Lia
  Permutation.
Import ListNotations.
Local Open Scope Z_scope.

Declare Scope py_scope.
Declare Scope store_scope.

(** ** The fragment of Python the module relies on *)

Module Py.

Inductive exn : Type :=
| IndexError
| ValueError (msg : string)
| BackendShapeError.

Inductive result (A : Type) : Type :=
| Ok (a : A)
| Raise (e : exn).
Arguments Ok {A} a.
Arguments Raise {A} e.

Definition bind {A B : Type} (m : result A) (f : A -> result B) : result B :=
  match m with
  | Ok a => f a
  | Raise e => Raise e
  end.

Notation "x <- m ;; k" := (bind m (fun x => k))
  (at level 61, m at next level, right associativity) : py_scope.

Local Open Scope py_scope.

(** A list comprehension whose body may raise: the first failure wins. *)
Fixpoint comprehension {A B : Type} (f : A -> result B) (xs : list A)
  : result (list B) :=
  match xs with
  | [] => Ok []
  | x :: xs' => y <- f x ;; ys <- comprehension f xs' ;; Ok (y :: ys)
  end.

(** [any(p(x) for x in xs)]: stops at the first true test. *)
Fixpoint any {A : Type} (p : A -> result bool) (xs : list A) : result bool :=
  match xs with
  | [] => Ok false
  | x :: xs' => b <- p x ;; if b then Ok true else any p xs'
  end.

(** [s[i]] resolves [i] against [len(s)]: [0 <= i < len] is taken as it
    is, [-len <= i < 0] counts from the end, anything else is out of
    range. *)
Definition norm_index (len : nat) (i : Z) : option nat :=
  let n := Z.of_nat len in
  if (0 <=? i) && (i <? n) then Some (Z.to_nat i)
  else if (- n <=? i) && (i <? 0) then Some (Z.to_nat (n + i))
  else None.

(** [s[i]] *)
Definition getitem {A : Type} (s : list A) (i : Z) : result A :=
  match norm_index (length s) i with
  | Some k =>
      match nth_error s k with
      | Some x => Ok x
      | None => Raise IndexError
      end
  | None => Raise IndexError
  end.

Fixpoint replace_nth {A : Type} (k : nat) (v : A) (s : list A) : list A :=
  match s, k with
  | [], _ => []
  | _ :: s', O => v :: s'
  | x :: s', S k' => x :: replace_nth k' v s'
  end.

(** [s[i] = v] on a list *)
Definition setitem {A : Type} (s : list A) (i : Z) (v : A) : result (list A) :=
  match norm_index (length s) i with
  | Some k => Ok (replace_nth k v s)
  | None => Raise IndexError
  end.

(** [sum(xs)]: starts from [0] and adds from the left. *)
Definition sum (xs : list Z) : Z := fold_left Z.add xs 0.

(** ["%d" % n] for a length *)
Definition fmt_d (n : nat) : string := NilZero.string_of_uint (Nat.to_uint n).

End Py.

Export Py.
Local Open Scope py_scope.

(** A shape is a tuple of dimension sizes. *)
Definition shape : Type := list Z.

Definition shape_eq_dec : forall a b : shape, {a = b} + {a <> b} :=
  list_eq_dec Z.eq_dec.

(** [a != b] on tuples *)
Definition shape_ne (a b : shape) : bool :=
  if shape_eq_dec a b then false else true.

(** ** Numbers and tensors *)

(** What the layers ask of the numbers in a tensor and of the coefficients:
    [+], [*], the literal [1] and the test [!=].  The laws are those the
    statements below rely on; Python's integers satisfy them. *)
Class Number (R : Type) : Type := {
  add : R -> R -> R;
  mul : R -> R -> R;
  one : R;
  ne : R -> R -> bool;
  ne_false : forall x y, ne x y = false -> x = y;
  mul_one_r : forall x, mul x one = x;
  mul_comm : forall x y, mul x y = mul y x
}.

#[export] Instance Number_Z : Number Z := {|
  add := Z.add;
  mul := Z.mul;
  one := 1;
  ne := fun x y => negb (x =? y);
  ne_false := fun x y E => proj1 (Z.eqb_eq x y) (proj1 (negb_false_iff _) E);
  mul_one_r := Z.mul_1_r;
  mul_comm := Z.mul_comm
|}.

(** The value of a tensor: a number, or a sequence of sub-tensors along the
    leading axis ([[1,2],[3,4]] is [Arr [Arr [1;2]; Arr [3;4]]]). *)
#[warnings="-register-all"]
Inductive tensor (R : Type) : Type :=
| Scalar (x : R)
| Arr (xs : list (tensor R)).
Arguments Scalar {R} x.
Arguments Arr {R} xs.

Definition option_shape_eqb (a b : option shape) : bool :=
  match a, b with
  | Some s, Some s' => if shape_eq_dec s s' then true else false
  | _, _ => false
  end.

(** The shape of a tensor value; [None] when its rows are ragged. *)
Fixpoint tshape {R : Type} (t : tensor R) : option shape :=
  match t with
  | Scalar _ => Some []
  | Arr xs =>
      match map tshape xs with
      | [] => Some [0]
      | Some s :: rest =>
          if forallb (option_shape_eqb (Some s)) rest
          then Some (Z.of_nat (length xs) :: s)
          else None
      | None :: _ => None
      end
  end.

(** The number at a multi-index. *)
Fixpoint tget {R : Type} (t : tensor R) (idx : list nat) : option R :=
  match t, idx with
  | Scalar x, [] => Some x
  | Arr xs, i :: idx' =>
      match nth_error xs i with
      | Some t' => tget t' idx'
      | None => None
      end
  | _, _ => None
  end.

(** Pairs two sequences entry by entry with an operation that may fail;
    sequences of different lengths do not pair. *)
Section ZipWith.
Context {A B C : Type} (f : A -> B -> option C).

Fixpoint zip_with (xs : list A) (ys : list B) : option (list C) :=
  match xs, ys with
  | [], [] => Some []
  | x :: xs', y :: ys' =>
      match f x y, zip_with xs' ys' with
      | Some z, Some zs => Some (z :: zs)
      | _, _ => None
      end
  | _, _ => None
  end.

End ZipWith.

Section TensorOps.
Context {R : Type} `{Number R}.

(** [t * c] for a number [c]: every entry is multiplied by [c]. *)
Fixpoint tmul (t : tensor R) (c : R) : tensor R :=
  match t with
  | Scalar x => Scalar (mul x c)
  | Arr xs => Arr (map (fun t' => tmul t' c) xs)
  end.

(** [a + b], entry by entry; the backend rejects operands of different
    shapes. *)
Fixpoint tadd (a b : tensor R) : option (tensor R) :=
  match a, b with
  | Scalar x, Scalar y => Some (Scalar (add x y))
  | Arr xs, Arr ys => option_map Arr (zip_with tadd xs ys)
  | _, _ => None
  end.

End TensorOps.

(** ** Concatenation of tensor values *)

Section Concatenate.
Context {R : Type}.

Definition children (t : tensor R) : option (list (tensor R)) :=
  match t with
  | Arr xs => Some xs
  | Scalar _ => None
  end.

Fixpoint all_children (ts : list (tensor R)) : option (list (list (tensor R))) :=
  match ts with
  | [] => Some []
  | t :: ts' =>
      match children t, all_children ts' with
      | Some xs, Some xss => Some (xs :: xss)
      | _, _ => None
      end
  end.

Fixpoint all_some {A : Type} (os : list (option A)) : option (list A) :=
  match os with
  | [] => Some []
  | o :: os' =>
      match o, all_some os' with
      | Some x, Some xs => Some (x :: xs)
      | _, _ => None
      end
  end.

(** Modelled from the spec: what "concatenation along [axis]" of tensor
    values is, for the axis counted from the leading one.  Along axis [0]
    the rows of the inputs follow one another in input order; along a
    deeper axis the inputs have the same number of rows and the [j]-th row
    of the result is the concatenation of the inputs' [j]-th rows along the
    axis below. *)
Fixpoint concat_axis (k : nat) (ts : list (tensor R)) : option (tensor R) :=
  match k with
  | O => option_map (fun xss => Arr (List.concat xss)) (all_children ts)
  | S k' =>
      match all_children ts with
      | Some (xs0 :: xss) =>
          if forallb (fun xs => Nat.eqb (length xs) (length xs0)) xss
          then
            option_map Arr
              (all_some
                 (map (fun j =>
                         concat_axis k'
                           (map (fun xs => nth j xs (Arr [])) (xs0 :: xss)))
                      (seq 0 (length xs0))))
          else None
      | _ => None
      end
  end.

(** Modelled from the spec: [utils.concatenate(tensor_list, axis)], the
    helper of [lasagne/utils.py] that [ConcatLayer.get_output_for] calls and
    that is not part of this module; the spec says of it that it "returns
    their concatenation along [axis]" and that a mismatch of the other
    dimensions "surfaces only as a downstream tensor-shape error from the
    backend".  [axis] names a dimension of the first tensor the way
    [get_output_shape_for] indexes its shape. *)
Definition concatenate (tensor_list : list (tensor R)) (axis : Z)
  : result (tensor R) :=
  match tensor_list with
  | [] => Raise IndexError
  | t0 :: _ =>
      match tshape t0 with
      | None => Raise BackendShapeError
      | Some s0 =>
          match norm_index (length s0) axis with
          | None => Raise IndexError
          | Some k =>
              match concat_axis k tensor_list with
              | Some t => Ok t
              | None => Raise BackendShapeError
              end
          end
      end
  end.

End Concatenate.

(** ** The object store *)

(** Tensors are Python objects; a layer receives references to them.  What
    an augmented assignment [x *= c] or [x += y] does depends on the class
    of [x]: Python calls [x.__imul__(c)] when the class defines it, which
    overwrites the object and leaves [x] bound to it, and otherwise
    evaluates [x = x * c], which builds a new object and rebinds the local
    name only.  The tensors of this library are Theano's symbolic
    variables, whose class defines none of the in-place operators
    ([Symbolic]); numpy's arrays are the example of a class that does
    ([InPlace]). *)
Inductive tensor_class : Type :=
| Symbolic
| InPlace.

Definition ref : Type := nat.

Record heap (R : Type) : Type := {
  cells : ref -> tensor R;
  next : ref
}.
Arguments cells {R} h r.
Arguments next {R} h.

(** A computation on the store that may raise; the store survives the
    exception. *)
Definition M (R A : Type) : Type := heap R -> result A * heap R.

Section Store.
Context {R : Type}.

Definition ret {A : Type} (a : A) : M R A := fun h => (Ok a, h).

Definition bindM {A B : Type} (m : M R A) (f : A -> M R B) : M R B :=
  fun h =>
    match m h with
    | (Ok a, h') => f a h'
    | (Raise e, h') => (Raise e, h')
    end.

Definition raise {A : Type} (e : exn) : M R A := fun h => (Raise e, h).

Definition load (r : ref) : M R (tensor R) := fun h => (Ok (cells h r), h).

(** The store with the object at [r] overwritten. *)
Definition update (h : heap R) (r : ref) (t : tensor R) : heap R :=
  {| cells := fun r' => if Nat.eqb r' r then t else cells h r';
     next := next h |}.

(** The store with one more object, at the reference [next h]. *)
Definition extend (h : heap R) (t : tensor R) : heap R :=
  {| cells := fun r' => if Nat.eqb r' (next h) then t else cells h r';
     next := S (next h) |}.

Definition write (r : ref) (t : tensor R) : M R unit :=
  fun h => (Ok tt, update h r t).

Definition alloc (t : tensor R) : M R ref :=
  fun h => (Ok (next h), extend h t).

End Store.

Notation "x <- m ;; k" := (bindM m (fun x => k))
  (at level 61, m at next level, right associativity) : store_scope.
Delimit Scope store_scope with store.

(** Modelled from the spec: [utils.concatenate(tensor_list, axis)] on
    objects.  The helper is not part of this module; the spec has
    [get_output_for] return the concatenation and have no side effect, so
    the concatenation of the tensors the references hold is a new object,
    and a failure leaves the store as it is. *)
Definition utils_concatenate {R : Type} (tensor_list : list ref) (axis : Z)
  : M R ref :=
  fun h =>
    match concatenate (map (cells h) tensor_list) axis with
    | Ok t => alloc t h
    | Raise e => (Raise e, h)
    end.

Section Operators.
Context {R : Type} `{Number R}.
Variable cls : tensor_class.
Local Open Scope store_scope.

(** Where the value [v] of [x * c] or [x + y] goes in [x *= c] and
    [x += y], and what [x] is bound to afterwards. *)
Definition augmented (x : ref) (v : tensor R) : M R ref :=
  match cls with
  | Symbolic => alloc v
  | InPlace => _ <- write x v ;; ret x
  end.

(** [x *= c] *)
Definition imul (x : ref) (c : R) : M R ref :=
  v <- load x ;;
  augmented x (tmul v c).

(** [x += y] *)
Definition iadd (x y : ref) : M R ref :=
  a <- load x ;;
  b <- load y ;;
  match tadd a b with
  | Some s => augmented x s
  | None => raise BackendShapeError
  end.

End Operators.

(** What a caller sees of a returned reference: the tensor it points to,
    [None] for Python's [None]. *)
Definition value_of {R : Type} (out : result (option ref) * heap R)
  : result (option (tensor R)) :=
  match out with
  | (Ok (Some r), h) => Ok (Some (cells h r))
  | (Ok None, _) => Ok None
  | (Raise e, _) => Raise e
  end.

(** ** ConcatLayer *)

Module ConcatLayer.
Section WithLayer.

(** The upstream layers are nodes of the external graph framework; the
    merge layers only keep them. *)
Context {Layer : Type}.

Record layer : Type := {
  input_layers : list Layer;
  axis : Z
}.

(** [axis=1] *)
Definition default_axis : Z := 1.

Definition __init__ (input_layers : list Layer) (axis : Z) : layer :=
  {| input_layers := input_layers; axis := axis |}.

Definition get_output_shape_for (self : layer) (input_shapes : list shape)
  : result shape :=
  sizes <- comprehension (fun input_shape => getitem input_shape (axis self))
                         input_shapes ;;
  output_shape <- getitem input_shapes 0 ;;
  output_shape <- setitem output_shape (axis self) (Py.sum sizes) ;;
  Ok output_shape.

Definition get_output_for {R : Type} (self : layer) (inputs : list ref)
  : M R ref :=
  utils_concatenate inputs (axis self).

End WithLayer.
Arguments layer : clear implicits.
End ConcatLayer.

(** ** ElemwiseSumLayer *)

Module ElemwiseSumLayer.
Section WithLayer.
Context {Layer R : Type} `{Number R}.

(** The [coeffs] argument of the constructor: [isinstance(coeffs, list)]
    tells a list of coefficients from a single one. *)
Inductive coeffs_arg : Type :=
| CoeffList (l : list R)
| CoeffScalar (c : R).

Record layer : Type := {
  input_layers : list Layer;
  coeffs : list R
}.

(** [coeffs=1] *)
Definition default_coeffs : coeffs_arg := CoeffScalar one.

Definition size_mismatch (n_coeffs n_layers : nat) : string :=
  ("Mismatch: got " ++ fmt_d n_coeffs ++ " coeffs for "
     ++ fmt_d n_layers ++ " input_layers")%string.

Definition __init__ (input_layers : list Layer) (coeffs : coeffs_arg)
  : result layer :=
  coeffs <- match coeffs with
            | CoeffList l =>
                if negb (Nat.eqb (length l) (length input_layers))
                then Raise (ValueError
                              (size_mismatch (length l) (length input_layers)))
                else Ok l
            | CoeffScalar c => Ok (repeat c (length input_layers))
            end ;;
  Ok {| input_layers := input_layers; coeffs := coeffs |}.

Definition shape_mismatch : string :=
  "Mismatch: not all input shapes are the same"%string.

Definition get_output_shape_for (self : layer) (input_shapes : list shape)
  : result shape :=
  differ <- any (fun shape => first <- getitem input_shapes 0 ;;
                              Ok (shape_ne shape first))
                input_shapes ;;
  if differ then Raise (ValueError shape_mismatch)
  else getitem input_shapes 0.

Section GetOutputFor.
Variable cls : tensor_class.
Local Open Scope store_scope.

(** The body of [for coeff, input in zip(self.coeffs, inputs)], with the
    local [output] threaded through. *)
Fixpoint for_loop (pairs : list (R * ref)) (output : option ref)
  : M R (option ref) :=
  match pairs with
  | [] => ret output
  | (coeff, input) :: pairs' =>
      input <- (if ne coeff one then imul cls input coeff else ret input) ;;
      output <- match output with
                | Some output => output <- iadd cls output input ;;
                                 ret (Some output)
                | None => ret (Some input)
                end ;;
      for_loop pairs' output
  end.

Definition get_output_for (self : layer) (inputs : list ref)
  : M R (option ref) :=
  for_loop (combine (coeffs self) inputs) None.

End GetOutputFor.

End WithLayer.
Arguments layer : clear implicits.
Arguments coeffs_arg : clear implicits.
End ElemwiseSumLayer.

(** ** Vocabulary of the statements *)

(** [axis] is an index Python accepts for [s]. *)
Definition valid_axis (axis : Z) (s : shape) : Prop :=
  - Z.of_nat (length s) <= axis < Z.of_nat (length s).

(** The size of [s] along [axis] ([0] where there is none). *)
Definition size_along (axis : Z) (s : shape) : Z :=
  match getitem s axis with
  | Ok n => n
  | Raise _ => 0
  end.

(** Shapes that agree with [first] on every dimension but the [k]-th. *)
Definition agree_off_axis (k : nat) (first s : shape) : Prop :=
  length s = length first /\
  forall j, j <> k -> nth_error s j = nth_error first j.

(** The size of dimension [k] of a shape. *)
Definition dim (k : nat) (s : shape) : Z := nth k s 0.

(** Where the [j]-th of the inputs of shapes [shapes] starts along
    dimension [k] of their concatenation. *)
Definition offset (k : nat) (shapes : list shape) (j : nat) : nat :=
  Z.to_nat (Py.sum (map (dim k) (firstn j shapes))).

(** The multi-index [idx] moved by [off] along dimension [k]. *)
Fixpoint shift_index (k off : nat) (idx : list nat) : list nat :=
  match idx, k with
  | [], _ => []
  | i :: idx', O => (off + i)%nat :: idx'
  | i :: idx', S k' => i :: shift_index k' off idx'
  end.

(** Every entry of every tensor of [ts] sits in [t] at its own index, moved
    along dimension [k] past the inputs before it. *)
Definition placed {R : Type} (k : nat) (shapes : list shape)
  (ts : list (tensor R)) (t : tensor R) : Prop :=
  forall j tj idx v,
    nth_error ts j = Some tj ->
    tget tj idx = Some v ->
    tget t (shift_index k (offset k shapes j) idx) = Some v.

(** Every entry of [t] is an entry of one of the tensors of [ts], found at
    such a moved index. *)
Definition covered {R : Type} (k : nat) (shapes : list shape)
  (ts : list (tensor R)) (t : tensor R) : Prop :=
  forall idx v,
    tget t idx = Some v ->
    exists j tj idx',
      nth_error ts j = Some tj /\
      tget tj idx' = Some v /\
      idx = shift_index k (offset k shapes j) idx'.

(** [xs] are the rows of a tensor of shape [s]. *)
Definition rows_of {R : Type} (xs : list (tensor R)) (s : shape) : Prop :=
  s <> [] /\
  Z.of_nat (length xs) = dim 0 s /\
  Forall (fun x => tshape x = Some (tl s)) xs /\
  (xs = [] -> tl s = []).

Section WeightedSumSpec.
Context {R : Type} `{Number R}.

(** The running sum of the spec: each term [coeff * input], multiplied out
    whatever the coefficient, is added in list order to what has been
    accumulated; the first term starts the sum. *)
Fixpoint sum_loop (terms : list (R * tensor R)) (acc : option (tensor R))
  : result (option (tensor R)) :=
  match terms with
  | [] => Ok acc
  | (c, x) :: terms' =>
      match acc with
      | None => sum_loop terms' (Some (tmul x c))
      | Some a =>
          match tadd a (tmul x c) with
          | Some s => sum_loop terms' (Some s)
          | None => Raise BackendShapeError
          end
      end
  end.

Definition weighted_sum (coeffs : list R) (inputs : list (tensor R))
  : result (option (tensor R)) :=
  sum_loop (combine coeffs inputs) None.

(** [coeff_i * v_i] for the numbers [v_i] the inputs hold at one index. *)
Definition products (coeffs vals : list R) : list R :=
  map (fun cv => mul (fst cv) (snd cv)) (combine coeffs vals).

(** [t0 + t1 + ...] on numbers, from the left; nothing for no term. *)
Definition sum_in_order (terms : list R) : option R :=
  match terms with
  | [] => None
  | t :: ts => Some (fold_left add ts t)
  end.

(** [(x + y) + z] on tensors. *)
Definition plain_sum3 (x y z : tensor R) : result (option (tensor R)) :=
  match tadd x y with
  | Some s =>
      match tadd s z with
      | Some t => Ok (Some t)
      | None => Raise BackendShapeError
      end
  | None => Raise BackendShapeError
  end.

End WeightedSumSpec.

(** [h'] has every object of [h], unchanged, and possibly new ones. *)
Definition extends {R : Type} (h h' : heap R) : Prop :=
  (next h <= next h')%nat /\
  forall r, (r < next h)%nat -> cells h' r = cells h r.

(** Every reference of [rs] points to an object of [h]. *)
Definition allocated {R : Type} (h : heap R) (rs : list ref) : Prop :=
  Forall (fun r => (r < next h)%nat) rs.

(** The coefficient and the tensor of each turn of the loop. *)
Definition pair_values {R : Type} (h : heap R) (pairs : list (R * ref))
  : list (R * tensor R) :=
  map (fun p => (fst p, cells h (snd p))) pairs.

(** The tensor a returned reference points to. *)
Definition tensor_of {R : Type} (out : result ref * heap R) : result (tensor R) :=
  match out with
  | (Ok r, h) => Ok (cells h r)
  | (Raise e, _) => Raise e
  end.

(** Integer vectors and matrices, and a store that holds [A = [1,2,3]] and
    [B = [4,5,6]] and one that holds [[[1,2],[3,4]]] and [[[5,6],[7,8]]]. *)
Definition vec (l : list Z) : tensor Z := Arr (map Scalar l).

Definition mat (l : list (list Z)) : tensor Z := Arr (map vec l).

Definition store_of (ts : list (tensor Z)) : heap Z :=
  {| cells := fun r => nth r ts (Arr []); next := length ts |}.

Definition store_AB : heap Z := store_of [vec [1; 2; 3]; vec [4; 5; 6]].

Definition store_mats : heap Z :=
  store_of [mat [[1; 2]; [3; 4]]; mat [[5; 6]; [7; 8]]].

(** The number of entries of a tensor of shape [s]. *)
Definition numel (s : shape) : Z := fold_right Z.mul 1 s.

Section Turn.
Context {R : Type} `{Number R}.
Variable cls : tensor_class.

(** What [if coeff != 1: input *= coeff] leaves: the reference [input] is
    bound to, and the store. *)
Definition scaled (coeff : R) (input : ref) (h : heap R) : ref * heap R :=
  if ne coeff one then
    match cls with
    | Symbolic => (next h, extend h (tmul (cells h input) coeff))
    | InPlace => (input, update h input (tmul (cells h input) coeff))
    end
  else (input, h).

(** What [output += input] leaves. *)
Definition added (output input : ref) (h : heap R) : result ref * heap R :=
  match tadd (cells h output) (cells h input) with
  | Some s =>
      match cls with
      | Symbolic => (Ok (next h), extend h s)
      | InPlace => (Ok output, update h output s)
      end
  | None => (Raise BackendShapeError, h)
  end.

(** One turn of the loop: the new binding of [output], and the store. *)
Definition turn (coeff : R) (input : ref) (output : option ref) (h : heap R)
  : result ref * heap R :=
  let (input', h1) := scaled coeff input h in
  match output with
  | Some o => added o input' h1
  | None => (Ok input', h1)
  end.

End Turn.

(** The turns of the loop that multiply. *)
Definition multiplied {R : Type} `{Number R} (pairs : list (R * ref)) : nat :=
  length (filter (fun p => ne (fst p) one) pairs).

(** The layer of the example of the spec: two inputs, coefficients
    [[2, 1]]. *)
Definition layer_2_1 : ElemwiseSumLayer.layer unit Z :=
  {| ElemwiseSumLayer.input_layers := [tt; tt];
     ElemwiseSumLayer.coeffs := [2; 1] |}.

(** ** Indexing *)

Section Indexing.
Context {A : Type}.

Lemma norm_index_Some (len : nat) (i : Z) (k : nat) :
  norm_index len i = Some k ->
  (k < len)%nat /\
  (Z.of_nat k = i \/ Z.of_nat k = Z.of_nat len + i).
Proof.
  unfold norm_index.
  destruct (0 <=? i) eqn:E0, (i <? Z.of_nat len) eqn:E1; simpl;
    try destruct (- Z.of_nat len <=? i) eqn:E2;
    try destruct (i <? 0) eqn:E3; simpl;
    intros [= <-]; lia.
Qed.

Lemma norm_index_valid (len : nat) (i : Z) :
  - Z.of_nat len <= i < Z.of_nat len ->
  exists k, norm_index len i = Some k.
Proof.
  intros Hi. unfold norm_index.
  destruct (0 <=? i) eqn:E0, (i <? Z.of_nat len) eqn:E1; simpl; eauto;
    destruct (- Z.of_nat len <=? i) eqn:E2, (i <? 0) eqn:E3; simpl; eauto; lia.
Qed.

Lemma getitem_norm (s : list A) (i : Z) (k : nat) :
  norm_index (length s) i = Some k ->
  exists x, nth_error s k = Some x /\ getitem s i = Ok x.
Proof.
  intros E. unfold getitem. rewrite E.
  destruct (norm_index_Some _ _ _ E) as [Hk _].
  destruct (nth_error s k) as [x|] eqn:En.
  - eauto.
  - apply nth_error_None in En. lia.
Qed.

Lemma length_replace_nth (k : nat) (v : A) (s : list A) :
  length (replace_nth k v s) = length s.
Proof.
  revert k. induction s as [|x s IH]; intros [|k]; simpl; auto.
Qed.

Lemma nth_error_replace_nth_same (k : nat) (v : A) (s : list A) :
  (k < length s)%nat -> nth_error (replace_nth k v s) k = Some v.
Proof.
  revert k. induction s as [|x s IH]; intros [|k]; simpl; intros Hk;
    try lia; auto.
  apply IH. lia.
Qed.

Lemma nth_error_replace_nth_other (k j : nat) (v : A) (s : list A) :
  j <> k -> nth_error (replace_nth k v s) j = nth_error s j.
Proof.
  revert k j. induction s as [|x s IH]; intros [|k] [|j]; simpl; intros Hjk;
    auto; try contradiction.
Qed.

End Indexing.

Lemma getitem_valid (s : shape) (axis : Z) :
  valid_axis axis s -> getitem s axis = Ok (size_along axis s).
Proof.
  intros Hv. destruct (norm_index_valid _ _ Hv) as [k Hk].
  destruct (getitem_norm s axis k Hk) as [x [_ Hx]].
  unfold size_along. now rewrite Hx.
Qed.

Lemma comprehension_sizes (axis : Z) (shapes : list shape) :
  Forall (valid_axis axis) shapes ->
  comprehension (fun input_shape => getitem input_shape axis) shapes
  = Ok (map (size_along axis) shapes).
Proof.
  induction 1 as [|s shapes Hs _ IH]; simpl.
  - reflexivity.
  - rewrite (getitem_valid s axis Hs). simpl. rewrite IH. reflexivity.
Qed.

(** ** ConcatLayer: the output shape *)

Section ConcatShape.
Context {Layer : Type}.
Implicit Types (self : ConcatLayer.layer Layer) (first : shape)
  (others : list shape).

(** What the method computes whenever the axis indexes every input shape. *)
Lemma concat_shape_run self first others :
  Forall (valid_axis (ConcatLayer.axis self)) (first :: others) ->
  exists k,
    norm_index (length first) (ConcatLayer.axis self) = Some k /\
    ConcatLayer.get_output_shape_for self (first :: others)
    = Ok (replace_nth k
            (Py.sum (map (size_along (ConcatLayer.axis self)) (first :: others)))
            first).
Proof.
  intros Hall.
  assert (Hfirst : valid_axis (ConcatLayer.axis self) first)
    by now inversion Hall.
  destruct (norm_index_valid _ _ Hfirst) as [k Hk].
  exists k. split; [exact Hk|].
  unfold ConcatLayer.get_output_shape_for.
  rewrite (comprehension_sizes _ _ Hall).
  cbn [bind getitem norm_index length nth_error].
  unfold getitem. simpl. unfold setitem. rewrite Hk. reflexivity.
Qed.

End ConcatShape.

Section ConcatShapeClaims.
Context {Layer : Type}.
Implicit Types (self : ConcatLayer.layer Layer) (first : shape)
  (others : list shape).

Lemma agree_off_axis_valid (axis : Z) (k : nat) first s :
  norm_index (length first) axis = Some k ->
  agree_off_axis k first s ->
  valid_axis axis s.
Proof.
  intros Hk [Hlen _]. unfold valid_axis. rewrite Hlen.
  destruct (norm_index_Some _ _ _ Hk). lia.
Qed.

(** C1. For a non-empty list of input shapes that agree on every dimension
    but the layer's axis (a valid index of the shapes, naming their
    dimension [k]), [ConcatLayer.get_output_shape_for] returns a shape of
    the first input's length whose size along the axis is the sum of the
    sizes of all inputs along the axis, and whose other dimensions are the
    first input's. *)
Theorem concat_shape_sums_axis self first others (k : nat) :
  norm_index (length first) (ConcatLayer.axis self) = Some k ->
  Forall (agree_off_axis k first) others ->
  exists out,
    ConcatLayer.get_output_shape_for self (first :: others) = Ok out /\
    length out = length first /\
    getitem out (ConcatLayer.axis self)
    = Ok (Py.sum (map (size_along (ConcatLayer.axis self)) (first :: others))) /\
    (forall j, j <> k -> nth_error out j = nth_error first j).
Proof.
  intros Hk Hagree.
  assert (Hall : Forall (valid_axis (ConcatLayer.axis self)) (first :: others)).
  { constructor.
    - unfold valid_axis. destruct (norm_index_Some _ _ _ Hk). lia.
    - eapply Forall_impl; [|exact Hagree].
      intros s Hs. eapply agree_off_axis_valid; eauto. }
  destruct (concat_shape_run self first others Hall) as [k' [Hk' Hrun]].
  assert (k' = k) by congruence. subst k'.
  eexists. split; [exact Hrun|].
  destruct (norm_index_Some _ _ _ Hk) as [Hlt _].
  split; [apply length_replace_nth|]. split.
  - unfold getitem. rewrite length_replace_nth, Hk.
    now rewrite nth_error_replace_nth_same.
  - intros j Hj. now apply nth_error_replace_nth_other.
Qed.

(** C8 (as amended). The method validates nothing about the other
    dimensions: for a non-empty list of input shapes that the axis indexes,
    it returns the first shape with the size along the axis replaced by the
    sum of the inputs' sizes along the axis, whether or not the inputs
    agree elsewhere; shapes [(2,3)] and [(5,7)] along axis [1] give
    [(2,10)]. *)
Theorem concat_shape_unvalidated :
  (forall self first others,
     Forall (valid_axis (ConcatLayer.axis self)) (first :: others) ->
     exists k,
       norm_index (length first) (ConcatLayer.axis self) = Some k /\
       ConcatLayer.get_output_shape_for self (first :: others)
       = Ok (replace_nth k
               (Py.sum (map (size_along (ConcatLayer.axis self))
                            (first :: others)))
               first)) /\
  (forall layers,
     ConcatLayer.get_output_shape_for
       (ConcatLayer.__init__ (Layer := Layer) layers 1) [[2; 3]; [5; 7]]
     = Ok [2; 10]).
Proof.
  split.
  - apply concat_shape_run.
  - reflexivity.
Qed.

(** C9 (as amended). When the list of input shapes is not empty and the
    axis is a valid index of each of them, the method does not fail: every
    read [input_shape[axis]] succeeds, the write [output_shape[axis] = ...]
    into the copy of the first shape succeeds, and the result has the
    length of the first input shape. *)
Theorem concat_shape_never_fails self first others :
  Forall (valid_axis (ConcatLayer.axis self)) (first :: others) ->
  (forall s, In s (first :: others) ->
             exists n, getitem s (ConcatLayer.axis self) = Ok n) /\
  (forall v, exists written,
             setitem first (ConcatLayer.axis self) v = Ok written) /\
  exists out,
    ConcatLayer.get_output_shape_for self (first :: others) = Ok out /\
    length out = length first.
Proof.
  intros Hall. split; [|split].
  - intros s Hs. rewrite Forall_forall in Hall.
    eexists. apply getitem_valid. now apply Hall.
  - intros v. inversion Hall as [|? ? Hfirst _]; subst.
    destruct (norm_index_valid _ _ Hfirst) as [k Hk].
    unfold setitem. rewrite Hk. eauto.
  - destruct (concat_shape_run self first others Hall) as [k [_ Hrun]].
    eexists. split; [exact Hrun|]. apply length_replace_nth.
Qed.

End ConcatShapeClaims.

(** Input shapes [(2,3,5)] and [(2,4,5)] along axis [1]. *)
Lemma concat_shape_sums_axis_witness :
  exists out,
    ConcatLayer.get_output_shape_for
      (ConcatLayer.__init__ [tt; tt] 1) [[2; 3; 5]; [2; 4; 5]] = Ok out /\
    length out = 3%nat /\
    getitem out 1 = Ok 7 /\
    (forall j, j <> 1%nat -> nth_error out j = nth_error [2; 3; 5] j).
Proof.
  apply (concat_shape_sums_axis (ConcatLayer.__init__ [tt; tt] 1)
           [2; 3; 5] [[2; 4; 5]] 1).
  - reflexivity.
  - constructor; [|constructor]. split; [reflexivity|].
    intros [|[|[|j]]] Hj; try reflexivity. now elim Hj.
Defined.

(** The same two shapes seen with the axis counted from the end. *)
Lemma concat_shape_unvalidated_witness :
  exists k,
    norm_index 2 (-1) = Some k /\
    ConcatLayer.get_output_shape_for
      (ConcatLayer.__init__ [tt; tt] (-1)) [[2; 3]; [5; 7; 4]]
    = Ok (replace_nth k (Py.sum [3; 4]) [2; 3]).
Proof.
  apply (proj1 (@concat_shape_unvalidated unit)
           (ConcatLayer.__init__ [tt; tt] (-1)) [2; 3] [[5; 7; 4]]).
  repeat constructor; unfold valid_axis; simpl; lia.
Defined.

Lemma concat_shape_never_fails_witness :
  (forall s, In s [[2; 3]; [5; 7]] -> exists n, getitem s 0 = Ok n) /\
  (forall v : Z, exists written, setitem [2; 3] 0 v = Ok written) /\
  exists out,
    ConcatLayer.get_output_shape_for
      (ConcatLayer.__init__ [tt; tt] 0) [[2; 3]; [5; 7]] = Ok out /\
    length out = 2%nat.
Proof.
  apply (concat_shape_never_fails (ConcatLayer.__init__ [tt; tt] 0)
           [2; 3] [[5; 7]]).
  repeat constructor; unfold valid_axis; simpl; lia.
Defined.

(** C8 as stated fails on the empty list of shapes: the axis indexes each
    of its (no) shapes, and the method raises at [input_shapes[0]]. *)
Lemma concat_shape_unvalidated_empty :
  Forall (valid_axis 1) [] /\
  ConcatLayer.get_output_shape_for (ConcatLayer.__init__ (@nil unit) 1) []
  = Raise IndexError.
Proof. split; [constructor | reflexivity]. Qed.

(** C9 as stated fails for a layer without upstream layers: the
    precondition holds of its (no) upstream shapes, and the method fails. *)
Lemma concat_shape_fails_without_inputs :
  exists self : ConcatLayer.layer unit,
    Forall (valid_axis (ConcatLayer.axis self)) [] /\
    ConcatLayer.get_output_shape_for self [] = Raise IndexError /\
    forall out, ConcatLayer.get_output_shape_for self [] <> Ok out.
Proof.
  exists (ConcatLayer.__init__ [] ConcatLayer.default_axis).
  split; [constructor|]. split; [reflexivity|]. discriminate.
Qed.

(** ** ElemwiseSumLayer: construction and the output shape *)

Lemma getitem_0 {A : Type} (x : A) (xs : list A) : getitem (x :: xs) 0 = Ok x.
Proof.
  unfold getitem, norm_index.
  replace (0 <=? 0) with true by reflexivity.
  replace (0 <? Z.of_nat (length (x :: xs))) with true; [reflexivity|].
  symmetry. apply Z.ltb_lt. simpl length. lia.
Qed.

Lemma shape_ne_false (a b : shape) : shape_ne a b = false <-> a = b.
Proof.
  unfold shape_ne. destruct (shape_eq_dec a b); split; congruence.
Qed.

Lemma any_pure {A : Type} (p : A -> bool) (xs : list A) :
  any (fun x => Ok (p x)) xs = Ok (existsb p xs).
Proof.
  induction xs as [|x xs IH]; simpl; [reflexivity|].
  destruct (p x); simpl; auto.
Qed.

Lemma existsb_ne_false (first : shape) (others : list shape) :
  existsb (fun s => shape_ne s first) others = false <->
  Forall (eq first) others.
Proof.
  induction others as [|s others IH]; simpl.
  - split; auto.
  - rewrite orb_false_iff, IH, shape_ne_false. split.
    + intros [-> Hall]. now constructor.
    + intros Hall. inversion Hall; subst. auto.
Qed.

Section ElemwiseShapeClaims.
Context {Layer R : Type} `{Number R}.
Implicit Types (self : ElemwiseSumLayer.layer Layer R) (first : shape)
  (others : list shape).

Lemma elemwise_shape_run self first others :
  ElemwiseSumLayer.get_output_shape_for self (first :: others)
  = if existsb (fun s => shape_ne s first) others
    then Raise (ValueError ElemwiseSumLayer.shape_mismatch)
    else Ok first.
Proof.
  unfold ElemwiseSumLayer.get_output_shape_for.
  rewrite getitem_0. cbn [bind].
  rewrite (any_pure (fun s => shape_ne s first)). cbn [bind existsb].
  replace (shape_ne first first) with false
    by (symmetry; now apply shape_ne_false).
  reflexivity.
Qed.

(** C3. On a non-empty list of input shapes,
    [ElemwiseSumLayer.get_output_shape_for] returns the first shape exactly
    when all the shapes are equal, and raises the shape-mismatch
    [ValueError] exactly when they are not; the layer's coefficients (and
    anything else of [self]) play no part. *)
Theorem elemwise_shape_common_iff self first others :
  (ElemwiseSumLayer.get_output_shape_for self (first :: others) = Ok first
   <-> Forall (eq first) others) /\
  (ElemwiseSumLayer.get_output_shape_for self (first :: others)
   = Raise (ValueError ElemwiseSumLayer.shape_mismatch)
   <-> ~ Forall (eq first) others) /\
  (forall self',
     ElemwiseSumLayer.get_output_shape_for self' (first :: others)
     = ElemwiseSumLayer.get_output_shape_for self (first :: others)).
Proof.
  rewrite elemwise_shape_run.
  pose proof (existsb_ne_false first others) as Hex.
  destruct (existsb _ others) eqn:E; (split; [|split]).
  - split; [discriminate|]. intros Hall. now apply Hex in Hall.
  - split; [|reflexivity]. intros _ Hall. now apply Hex in Hall.
  - intros self'. now rewrite elemwise_shape_run, E.
  - split; [|reflexivity]. intros _. now apply Hex.
  - split; [discriminate|]. intros Hn. elim Hn. now apply Hex.
  - intros self'. now rewrite elemwise_shape_run, E.
Qed.

(** C4. Given a list of coefficients, the constructor raises the
    size-mismatch [ValueError] exactly when the list is not as long as the
    list of input layers; the constructor itself returns the error, and no
    layer.  With equal lengths it returns the layer that keeps the list. *)
Theorem init_size_mismatch_iff (input_layers : list Layer) (l : list R) :
  (ElemwiseSumLayer.__init__ input_layers (ElemwiseSumLayer.CoeffList l)
   = Raise (ValueError (ElemwiseSumLayer.size_mismatch
                          (length l) (length input_layers)))
   <-> length l <> length input_layers) /\
  (ElemwiseSumLayer.__init__ input_layers (ElemwiseSumLayer.CoeffList l)
   = Ok {| ElemwiseSumLayer.input_layers := input_layers;
           ElemwiseSumLayer.coeffs := l |}
   <-> length l = length input_layers).
Proof.
  unfold ElemwiseSumLayer.__init__.
  destruct (Nat.eqb_spec (length l) (length input_layers)) as [E|E];
    cbn [negb bind]; split; split; try discriminate; try tauto; auto.
Qed.

End ElemwiseShapeClaims.

(** ** Tensors: induction, shapes, entries *)

(** Induction on a tensor with the hypothesis available for every row. *)
Lemma tensor_rows_ind {R : Type} (P : tensor R -> Prop) :
  (forall x, P (Scalar x)) ->
  (forall xs, Forall P xs -> P (Arr xs)) ->
  forall t, P t.
Proof.
  intros HScalar HArr. fix IH 1. intros [x|xs].
  - apply HScalar.
  - apply HArr. induction xs as [|y ys IHys]; constructor.
    + apply IH.
    + exact IHys.
Qed.

Section TensorFacts.
Context {R : Type} `{Number R}.

Lemma tmul_one (t : tensor R) : tmul t one = t.
Proof.
  induction t as [x|xs IH] using tensor_rows_ind; simpl.
  - now rewrite mul_one_r.
  - f_equal. induction IH as [|y ys Hy _ IHys]; simpl; congruence.
Qed.

End TensorFacts.

Section Extends.
Context {R : Type}.
Implicit Types h : heap R.

Lemma extends_refl h : extends h h.
Proof. split; auto. Qed.

Lemma extends_trans h1 h2 h3 : extends h1 h2 -> extends h2 h3 -> extends h1 h3.
Proof.
  intros [L12 C12] [L23 C23]. split; [lia|].
  intros r Hr. rewrite C23 by lia. now apply C12.
Qed.

Lemma extends_extend h t : extends h (extend h t).
Proof.
  split; simpl; [lia|]. intros r Hr.
  destruct (Nat.eqb_spec r (next h)); [lia|reflexivity].
Qed.

Lemma cells_extend_new h t : cells (extend h t) (next h) = t.
Proof. simpl. now rewrite Nat.eqb_refl. Qed.

Lemma extends_map_cells h h' (rs : list ref) :
  extends h h' -> allocated h rs -> map (cells h') rs = map (cells h) rs.
Proof.
  intros [_ C] Hrs. induction Hrs as [|r rs Hr _ IH]; simpl; [reflexivity|].
  now rewrite C, IH.
Qed.

Lemma allocated_extends h h' rs :
  extends h h' -> allocated h rs -> allocated h' rs.
Proof.
  intros [L _] Hrs. eapply Forall_impl; [|exact Hrs]. simpl. intros; lia.
Qed.

End Extends.

Section SymbolicRun.
Context {Layer R : Type} `{Number R}.
Implicit Types (h : heap R) (pairs : list (R * ref)) (output : option ref).

Lemma pair_values_extends h h' pairs :
  extends h h' -> allocated h (map snd pairs) ->
  pair_values h' pairs = pair_values h pairs.
Proof.
  intros [_ C] Hrs. unfold pair_values.
  induction pairs as [|[c r] pairs IH]; simpl in *; [reflexivity|].
  inversion Hrs; subst. rewrite C, IH; auto.
Qed.

(** One run of the loop on symbolic tensors: the objects of the store stay
    as they are, and the tensor returned is the running sum of the spec. *)
Lemma for_loop_symbolic pairs : forall output h,
  allocated h (map snd pairs) ->
  (forall o, output = Some o -> (o < next h)%nat) ->
  exists res h',
    ElemwiseSumLayer.for_loop Symbolic pairs output h = (res, h') /\
    extends h h' /\
    (forall o, res = Ok (Some o) -> (o < next h')%nat) /\
    value_of (res, h')
    = sum_loop (pair_values h pairs) (option_map (cells h) output).
Proof.
  induction pairs as [|[c r] pairs IH]; intros output h Hrs Hout.
  - exists (Ok output), h. simpl. repeat split; auto using extends_refl.
    + intros o [= ->]. auto.
    + destruct output; reflexivity.
  - inversion Hrs as [|? ? Hr Hrs']; subst. simpl in Hr.
    (* the scaled input *)
    assert (Hin : exists input h1,
               (if ne c one then imul Symbolic r c else ret r) h
               = (Ok input, h1) /\
               extends h h1 /\ (input < next h1)%nat /\
               cells h1 input = tmul (cells h r) c).
    { destruct (ne c one) eqn:Ec.
      - exists (next h), (extend h (tmul (cells h r) c)).
        split; [reflexivity|]. split; [apply extends_extend|].
        split; [simpl; lia|]. apply cells_extend_new.
      - exists r, h. apply ne_false in Ec. subst c.
        rewrite tmul_one. repeat split; auto. }
    destruct Hin as (input & h1 & Erun & Hext1 & Hinput & Hval).
    assert (Hout1 : exists (output' : result (option ref)) h2,
               match output with
               | Some o =>
                   bindM (iadd Symbolic o input) (fun o' => ret (Some o'))
               | None => ret (Some input)
               end h1 = (output', h2) /\ extends h1 h2 /\
               match output' with
               | Ok (Some o') =>
                   (o' < next h2)%nat /\
                   match output with
                   | None => cells h2 o' = tmul (cells h r) c
                   | Some o =>
                       tadd (cells h o) (tmul (cells h r) c)
                       = Some (cells h2 o')
                   end
               | Ok None => False
               | Raise e =>
                   e = BackendShapeError /\
                   exists o, output = Some o /\
                             tadd (cells h o) (tmul (cells h r) c) = None
               end).
    { destruct output as [o|].
      - specialize (Hout o eq_refl).
        unfold bindM, iadd, load, bindM. rewrite Hval.
        replace (cells h1 o) with (cells h o) by (symmetry; now apply Hext1).
        destruct (tadd (cells h o) (tmul (cells h r) c)) as [s|] eqn:Es.
        + exists (Ok (Some (next h1))), (extend h1 s).
          split; [reflexivity|]. split; [apply extends_extend|].
          split; [simpl; lia|]. now rewrite cells_extend_new.
        + exists (Raise BackendShapeError), h1. simpl.
          repeat split; eauto.
      - exists (Ok (Some input)), h1. simpl. repeat split; auto. }
    destruct Hout1 as (output' & h2 & Erun2 & Hext2 & Hres).
    assert (Hext : extends h h2) by (eapply extends_trans; eauto).
    change (ElemwiseSumLayer.for_loop Symbolic ((c, r) :: pairs) output h)
      with (bindM (if ne c one then imul Symbolic r c else ret r)
              (fun input =>
                 bindM (match output with
                        | Some o => bindM (iadd Symbolic o input)
                                      (fun o' => ret (Some o'))
                        | None => ret (Some input)
                        end)
                   (fun output' =>
                      ElemwiseSumLayer.for_loop Symbolic pairs output')) h).
    unfold bindM at 1. rewrite Erun. unfold bindM at 1. rewrite Erun2.
    destruct output' as [[o'|]|e].
    + destruct Hres as [Ho' Hcell].
      destruct (IH (Some o') h2) as (res & h' & Eres & Hext' & Hres' & Hv).
      { eapply allocated_extends; eauto. }
      { intros ? [= <-]. exact Ho'. }
      exists res, h'. split; [exact Eres|]. split; [eapply extends_trans; eauto|].
      split; [exact Hres'|]. rewrite Hv.
      rewrite (pair_values_extends h h2) by auto.
      simpl. destruct output as [o|]; simpl.
      * rewrite Hcell. reflexivity.
      * rewrite Hcell. reflexivity.
    + contradiction.
    + destruct Hres as [-> (o & -> & Hnone)].
      exists (Raise BackendShapeError), h2. repeat split; auto; try apply Hext.
      * discriminate.
      * simpl. now rewrite Hnone.
Qed.

End SymbolicRun.

Section ZipWithFacts.
Context {A B C : Type} (f : A -> B -> option C).

Lemma zip_with_nth (xs : list A) : forall (ys : list B) (zs : list C),
  zip_with f xs ys = Some zs ->
  forall i,
    match nth_error xs i, nth_error ys i, nth_error zs i with
    | Some x, Some y, Some z => f x y = Some z
    | None, None, None => True
    | _, _, _ => False
    end.
Proof.
  induction xs as [|x xs IH]; intros [|y ys] zs E i; simpl in E;
    try discriminate.
  - injection E as <-. now destruct i.
  - destruct (f x y) as [z|] eqn:Ef; [|discriminate].
    destruct (zip_with f xs ys) as [zs'|] eqn:Ez; [|discriminate].
    injection E as <-. destruct i as [|i]; simpl; [exact Ef|].
    now apply IH.
Qed.

Lemma zip_with_Forall (P : A -> Prop) (Q : B -> Prop) (S : C -> Prop)
      (xs : list A) : forall (ys : list B),
  length xs = length ys ->
  Forall (fun x => P x /\ forall y, Q y -> exists z, f x y = Some z /\ S z) xs ->
  Forall Q ys ->
  exists zs, zip_with f xs ys = Some zs /\ length zs = length xs /\ Forall S zs.
Proof.
  induction xs as [|x xs IH]; intros [|y ys] Hlen Hxs Hys; simpl in Hlen;
    try discriminate.
  - exists []. auto.
  - inversion Hxs as [|? ? [_ Hx] Hxs']; subst.
    inversion Hys as [|? ? Hy Hys']; subst.
    destruct (Hx y Hy) as (z & Ez & Sz).
    destruct (IH ys) as (zs & Ezs & Hl & Szs); auto.
    exists (z :: zs). simpl. rewrite Ez, Ezs. simpl. auto.
Qed.

End ZipWithFacts.

Section ShapeFacts.
Context {R : Type}.
Implicit Types (t : tensor R) (xs : list (tensor R)) (s : shape).

Lemma forallb_shape_eq s (os : list (option shape)) :
  forallb (option_shape_eqb (Some s)) os = true <->
  Forall (eq (Some s)) os.
Proof.
  induction os as [|o os IH]; simpl.
  - split; auto.
  - rewrite andb_true_iff, IH. split.
    + intros [Ho Hos]. constructor; auto.
      destruct o as [s'|]; simpl in Ho; [|discriminate].
      destruct (shape_eq_dec s s'); congruence.
    + intros Hall. inversion Hall; subst. split; auto.
      simpl. now destruct (shape_eq_dec s s).
Qed.

Lemma tshape_rows xs s' :
  xs <> [] ->
  Forall (fun x => tshape x = Some s') xs ->
  tshape (Arr xs) = Some (Z.of_nat (length xs) :: s').
Proof.
  intros Hne Hall. destruct xs as [|x xs]; [congruence|].
  inversion Hall as [|? ? Hx Hxs]; subst.
  cbn [tshape map]. rewrite Hx.
  replace (forallb _ _) with true; [reflexivity|].
  symmetry. apply forallb_shape_eq.
  clear Hne Hall. induction Hxs as [|y ys Hy _ IHys]; simpl.
  - constructor.
  - constructor; [now rewrite Hy | exact IHys].
Qed.

Lemma tshape_rows_inv xs s :
  tshape (Arr xs) = Some s ->
  (xs = [] /\ s = [0]) \/
  (exists s', xs <> [] /\ s = Z.of_nat (length xs) :: s' /\
              Forall (fun x => tshape x = Some s') xs).
Proof.
  destruct xs as [|x xs]; cbn [tshape map].
  - intros [= <-]. auto.
  - destruct (tshape x) as [s'|] eqn:Ex; [|discriminate].
    destruct (forallb _ _) eqn:Eall; [|discriminate].
    intros [= <-]. right. exists s'. split; [discriminate|]. split; [reflexivity|].
    constructor; [exact Ex|].
    apply forallb_shape_eq in Eall.
    clear Ex. induction xs as [|y ys IH]; simpl in *; constructor.
    + inversion Eall; subst. auto.
    + apply IH. now inversion Eall.
Qed.

Lemma tshape_scalar_inv t : tshape t = Some [] -> exists x, t = Scalar x.
Proof.
  destruct t as [x|xs]; [eauto|].
  intros E. destruct (tshape_rows_inv _ _ E) as [[_ ?]|(? & _ & ? & _)];
    discriminate.
Qed.

End ShapeFacts.

Section ElementwiseFacts.
Context {R : Type} `{Number R}.
Implicit Types (t a b : tensor R) (s : shape).

Lemma tshape_tmul t (c : R) : tshape (tmul t c) = tshape t.
Proof.
  induction t as [x|xs IH] using tensor_rows_ind; [reflexivity|].
  cbn [tmul tshape]. rewrite length_map, map_map.
  replace (map (fun x => tshape (tmul x c)) xs) with (map tshape xs);
    [reflexivity|].
  induction IH as [|y ys Hy _ IHys]; simpl; congruence.
Qed.

Lemma tadd_same_shape a : forall b s,
  tshape a = Some s -> tshape b = Some s ->
  exists t, tadd a b = Some t /\ tshape t = Some s.
Proof.
  induction a as [x|xs IH] using tensor_rows_ind; intros b s Ha Hb.
  - injection Ha as <-. destruct (tshape_scalar_inv _ Hb) as [y ->].
    simpl. eauto.
  - destruct b as [y|ys].
    { injection Hb as <-.
      destruct (tshape_rows_inv _ _ Ha) as [[_ ?]|(? & _ & ? & _)];
        discriminate. }
    destruct (tshape_rows_inv _ _ Ha) as [[-> ->]|(s' & Hne & -> & Hxs)].
    + destruct (tshape_rows_inv _ _ Hb) as [[-> _]|(? & Hne & E & _)].
      * exists (Arr []). auto.
      * destruct ys; [congruence|]. simpl in E. injection E as E _. lia.
    + destruct (tshape_rows_inv _ _ Hb) as [[-> E]|(s2 & Hne2 & E & Hys)].
      * destruct xs; [congruence|]. simpl in E. injection E as E _. lia.
      * injection E as Elen <-.
        destruct (zip_with_Forall tadd
                    (fun x => tshape x = Some s')
                    (fun y => tshape y = Some s')
                    (fun z => tshape z = Some s') xs ys)
          as (zs & Ez & Hlen & Hzs).
        { lia. }
        { rewrite Forall_forall in *. intros x Hx. split; [auto|].
          intros y Hy. apply (IH x Hx); auto. }
        { exact Hys. }
        exists (Arr zs). cbn [tadd]. rewrite Ez. split; [reflexivity|].
        rewrite <- Hlen. apply tshape_rows; auto.
        destruct zs, xs; simpl in *; congruence.
Qed.

Lemma tget_tmul t (c : R) : forall idx,
  tget (tmul t c) idx = option_map (fun x => mul x c) (tget t idx).
Proof.
  induction t as [x|xs IH] using tensor_rows_ind; intros [|i idx];
    try reflexivity.
  cbn [tmul tget]. rewrite nth_error_map.
  destruct (nth_error xs i) as [x|] eqn:Ei; [|reflexivity].
  simpl. rewrite Forall_forall in IH. apply IH.
  eapply nth_error_In; eauto.
Qed.

Lemma tget_tadd a : forall b t idx,
  tadd a b = Some t ->
  tget t idx = match tget a idx, tget b idx with
               | Some x, Some y => Some (add x y)
               | _, _ => None
               end.
Proof.
  induction a as [x|xs IH] using tensor_rows_ind; intros [y|ys] t idx E;
    simpl in E; try discriminate.
  - injection E as <-. now destruct idx.
  - destruct (zip_with tadd xs ys) as [zs|] eqn:Ez; [|discriminate].
    injection E as <-. destruct idx as [|i idx]; [reflexivity|].
    cbn [tget]. pose proof (zip_with_nth tadd xs ys zs Ez i) as Hi.
    destruct (nth_error xs i) as [x|] eqn:Ex,
             (nth_error ys i) as [y|] eqn:Ey,
             (nth_error zs i) as [z|] eqn:Ezi; try contradiction.
    + rewrite Forall_forall in IH. eapply IH; eauto.
      eapply nth_error_In; eauto.
    + reflexivity.
Qed.

End ElementwiseFacts.

(** ** ElemwiseSumLayer: the weighted sum *)

Section WeightedSumFacts.
Context {R : Type} `{Number R}.
Implicit Types (coeffs vals : list R) (xs : list (tensor R)) (s : shape).

Lemma sum_loop_pointwise coeffs : forall xs (acc : tensor R) s,
  tshape acc = Some s ->
  Forall (fun x => tshape x = Some s) xs ->
  exists t,
    sum_loop (combine coeffs xs) (Some acc) = Ok (Some t) /\
    tshape t = Some s /\
    forall idx a vals,
      tget acc idx = Some a ->
      Forall2 (fun x v => tget x idx = Some v) xs vals ->
      tget t idx = Some (fold_left add (products coeffs vals) a).
Proof.
  induction coeffs as [|c coeffs IH]; intros xs acc s Hacc Hxs.
  - exists acc. repeat split; auto.
  - destruct xs as [|x xs].
    + exists acc. repeat split; auto.
      intros idx a vals Ha Hv. inversion Hv; subst. exact Ha.
    + inversion Hxs as [|? ? Hx Hxs']; subst.
      destruct (tadd_same_shape acc (tmul x c) s) as (t1 & E1 & Ht1); auto.
      { now rewrite tshape_tmul. }
      destruct (IH xs t1 s Ht1 Hxs') as (t & Et & Ht & Hpt).
      exists t. cbn [combine sum_loop]. rewrite E1. repeat split; auto.
      intros idx a vals Ha Hv. inversion Hv as [|? v ? vals' Hxv Hv']; subst.
      unfold products. cbn [combine map fold_left fst snd].
      apply Hpt; auto.
      rewrite (tget_tadd _ _ _ idx E1), Ha, tget_tmul, Hxv. simpl.
      now rewrite (mul_comm c v).
Qed.

Lemma weighted_sum_pointwise coeffs xs s :
  xs <> [] ->
  length coeffs = length xs ->
  Forall (fun x => tshape x = Some s) xs ->
  exists t,
    weighted_sum coeffs xs = Ok (Some t) /\
    tshape t = Some s /\
    forall idx vals,
      Forall2 (fun x v => tget x idx = Some v) xs vals ->
      tget t idx = sum_in_order (products coeffs vals).
Proof.
  intros Hne Hlen Hxs.
  destruct xs as [|x xs]; [congruence|].
  destruct coeffs as [|c coeffs]; [discriminate|].
  inversion Hxs as [|? ? Hx Hxs']; subst.
  destruct (sum_loop_pointwise coeffs xs (tmul x c) s) as (t & Et & Ht & Hpt);
    auto.
  { now rewrite tshape_tmul. }
  exists t. unfold weighted_sum. cbn [combine sum_loop].
  repeat split; auto.
  intros idx vals Hv. inversion Hv as [|? v ? vals' Hxv Hv']; subst.
  unfold products. cbn [combine map sum_in_order fst snd].
  apply Hpt; auto. rewrite tget_tmul, Hxv. simpl. now rewrite mul_comm.
Qed.

End WeightedSumFacts.

Section ElemwiseRun.
Context {Layer R : Type} `{Number R}.
Implicit Types (self : ElemwiseSumLayer.layer Layer R) (h : heap R)
  (inputs : list ref).

Lemma pair_values_combine h (coeffs : list R) : forall inputs,
  pair_values h (combine coeffs inputs) = combine coeffs (map (cells h) inputs).
Proof.
  unfold pair_values.
  induction coeffs as [|c coeffs IH]; intros [|r inputs]; simpl; auto.
  now rewrite IH.
Qed.

Lemma allocated_combine h (coeffs : list R) : forall inputs,
  allocated h inputs -> allocated h (map snd (combine coeffs inputs)).
Proof.
  unfold allocated.
  induction coeffs as [|c coeffs IH]; intros inputs Hin; simpl; [constructor|].
  destruct inputs as [|r inputs]; simpl; [constructor|].
  inversion Hin; subst. constructor; auto.
Qed.

(** What a call on symbolic tensors does to the store and returns. *)
Lemma elemwise_symbolic_run self inputs h :
  allocated h inputs ->
  exists res h',
    ElemwiseSumLayer.get_output_for Symbolic self inputs h = (res, h') /\
    extends h h' /\
    (forall o, res = Ok (Some o) -> (o < next h')%nat) /\
    value_of (res, h')
    = weighted_sum (ElemwiseSumLayer.coeffs self) (map (cells h) inputs).
Proof.
  intros Hin. unfold ElemwiseSumLayer.get_output_for.
  destruct (for_loop_symbolic (combine (ElemwiseSumLayer.coeffs self) inputs)
              None h) as (res & h' & E & Hext & Hres & Hv).
  { now apply allocated_combine. }
  { discriminate. }
  exists res, h'. repeat split; try apply Hext; auto.
  rewrite Hv, pair_values_combine. reflexivity.
Qed.

Lemma elemwise_symbolic_value self inputs h :
  allocated h inputs ->
  value_of (ElemwiseSumLayer.get_output_for Symbolic self inputs h)
  = weighted_sum (ElemwiseSumLayer.coeffs self) (map (cells h) inputs).
Proof.
  intros Hin.
  destruct (elemwise_symbolic_run self inputs h Hin)
    as (res & h' & E & _ & _ & Hv).
  now rewrite E.
Qed.

End ElemwiseRun.

(** ** Concatenation along an axis *)

Lemma fold_add_acc (xs : list Z) : forall a, fold_left Z.add xs a = a + Py.sum xs.
Proof.
  unfold Py.sum. induction xs as [|x xs IH]; intros a; simpl; [lia|].
  rewrite (IH (a + x)), (IH x). lia.
Qed.

Lemma sum_cons (x : Z) (xs : list Z) : Py.sum (x :: xs) = x + Py.sum xs.
Proof. unfold Py.sum at 1. simpl. apply fold_add_acc. Qed.

Section ListFacts.
Context {A : Type}.

Lemma length_concat_sum (xss : list (list A)) :
  Z.of_nat (length (concat xss))
  = Py.sum (map (fun xs => Z.of_nat (length xs)) xss).
Proof.
  induction xss as [|xs xss IH]; [reflexivity|].
  cbn [concat map]. rewrite length_app, sum_cons. lia.
Qed.

Lemma nth_error_concat (xss : list (list A)) : forall j xs i x,
  nth_error xss j = Some xs ->
  nth_error xs i = Some x ->
  nth_error (concat xss) (length (concat (firstn j xss)) + i) = Some x.
Proof.
  induction xss as [|ys xss IH]; intros [|j] xs i x Hj Hi; simpl in Hj;
    try discriminate.
  - injection Hj as ->. simpl. rewrite nth_error_app1; auto.
    apply nth_error_Some. congruence.
  - cbn [firstn concat]. rewrite length_app, nth_error_app2 by lia.
    replace (length ys + length (concat (firstn j xss)) + i - length ys)%nat
      with (length (concat (firstn j xss)) + i)%nat by lia.
    eapply IH; eauto.
Qed.

Lemma nth_error_concat_inv (xss : list (list A)) : forall i x,
  nth_error (concat xss) i = Some x ->
  exists j xs i',
    nth_error xss j = Some xs /\
    nth_error xs i' = Some x /\
    i = (length (concat (firstn j xss)) + i')%nat.
Proof.
  induction xss as [|ys xss IH]; intros i x Hi; simpl in Hi.
  - destruct i; discriminate.
  - destruct (Nat.ltb_spec i (length ys)) as [Hlt|Hge].
    + rewrite nth_error_app1 in Hi by exact Hlt.
      exists 0%nat, ys, i. auto.
    + rewrite nth_error_app2 in Hi by exact Hge.
      destruct (IH _ _ Hi) as (j & xs & i' & Hj & Hi' & E).
      exists (S j), xs, i'. split; [exact Hj|]. split; [exact Hi'|].
      cbn [firstn concat]. rewrite length_app. lia.
Qed.

Lemma all_some_map {B : Type} (f : B -> option A) (P : B -> Prop) (Q : A -> Prop)
      (l : list B) :
  Forall (fun b => exists a, f b = Some a /\ Q a) l ->
  exists xs, all_some (map f l) = Some xs /\ length xs = length l /\
             Forall Q xs /\
             forall i b, nth_error l i = Some b ->
                         exists a, nth_error xs i = Some a /\ f b = Some a.
Proof.
  induction 1 as [|b l (a & Ea & Qa) _ (xs & Exs & Hlen & HQ & Hnth)].
  - exists []. repeat split; auto. intros [|i] b E; discriminate.
  - exists (a :: xs). simpl. rewrite Ea, Exs.
    split; [reflexivity|]. split; [congruence|]. split; [now constructor|].
    intros [|i] b' E; simpl in E |- *.
    + injection E as <-. eauto.
    + now apply Hnth.
Qed.

End ListFacts.

Section ConcatFacts.
Context {R : Type}.
Implicit Types (t : tensor R) (ts : list (tensor R)) (s first : shape)
  (shapes others : list shape).

Lemma tshape_cons_inv t (n : Z) s :
  tshape t = Some (n :: s) ->
  exists xs, t = Arr xs /\ Z.of_nat (length xs) = n /\
             Forall (fun x => tshape x = Some s) xs /\
             (xs = [] -> s = []).
Proof.
  destruct t as [x|xs]; [discriminate|]. intros E. exists xs.
  destruct (tshape_rows_inv _ _ E) as [[-> [= -> ->]]|(s' & Hne & [= -> ->] & Hxs)];
    repeat split; auto. congruence.
Qed.

Lemma all_children_rows ts : forall shapes,
  Forall2 (fun t s => tshape t = Some s) ts shapes ->
  Forall (fun s => s <> []) shapes ->
  exists xss,
    all_children ts = Some xss /\ ts = map Arr xss /\
    Forall2 rows_of xss shapes.
Proof.
  induction ts as [|t ts IH]; intros shapes Hsh Hne;
    inversion Hsh as [|? s ? shapes' Ht Hts]; subst.
  - exists []. repeat split; constructor.
  - inversion Hne as [|? ? Hs Hne']; subst.
    destruct s as [|n s]; [congruence|].
    destruct (tshape_cons_inv _ _ _ Ht) as (xs & -> & Hn & Hxs & Hnil).
    destruct (IH shapes' Hts Hne') as (xss & Exss & -> & Hall).
    exists (xs :: xss). simpl. rewrite Exss.
    split; [reflexivity|]. split; [reflexivity|].
    constructor; auto. unfold rows_of. simpl. repeat split; auto; discriminate.
Qed.

Lemma rows_lengths (xss : list (list (tensor R))) shapes :
  Forall2 rows_of xss shapes ->
  map (fun xs => Z.of_nat (length xs)) xss = map (dim 0) shapes.
Proof.
  induction 1 as [|xs s xss shapes (_ & Hn & _) _ IH]; simpl; congruence.
Qed.

Lemma agree_tail (k : nat) (n : Z) first s :
  agree_off_axis (S k) (n :: first) s ->
  exists s', s = n :: s' /\ agree_off_axis k first s'.
Proof.
  intros [Hlen Hnth]. destruct s as [|m s']; [discriminate|].
  exists s'. split.
  - specialize (Hnth 0%nat). simpl in Hnth. f_equal.
    assert (Some m = Some n) by (apply Hnth; lia). congruence.
  - split; [simpl in Hlen; lia|].
    intros j Hj. apply (Hnth (S j)). lia.
Qed.

Lemma agree_head first s :
  first <> [] -> agree_off_axis 0 first s -> s <> [] /\ tl s = tl first.
Proof.
  intros Hne [Hlen Hnth]. destruct first as [|n first]; [congruence|].
  destruct s as [|m s]; [discriminate|]. split; [discriminate|]. simpl.
  apply nth_error_ext. intros j. apply (Hnth (S j)). lia.
Qed.

Lemma dim_tail (k : nat) s : dim (S k) s = dim k (tl s).
Proof. unfold dim. destruct s; simpl; [now destruct k|reflexivity]. Qed.

Lemma offset_tail (k : nat) shapes (j : nat) :
  offset (S k) shapes j = offset k (map (@tl Z) shapes) j.
Proof.
  unfold offset. do 2 f_equal. rewrite firstn_map, map_map.
  apply map_ext. intros s. apply dim_tail.
Qed.

Lemma offset_rows (xss : list (list (tensor R))) shapes (j : nat) :
  Forall2 rows_of xss shapes ->
  offset 0 shapes j = length (concat (firstn j xss)).
Proof.
  intros Hall. unfold offset.
  assert (Hj : Forall2 rows_of (firstn j xss) (firstn j shapes)).
  { clear -Hall. revert j. induction Hall; intros [|j]; simpl; constructor; auto. }
  rewrite <- (rows_lengths _ _ Hj), <- length_concat_sum. lia.
Qed.



Lemma rows_children (xss : list (list (tensor R))) shapes s :
  Forall2 rows_of xss shapes ->
  Forall (fun s' => tl s' = s) shapes ->
  Forall (fun x => tshape x = Some s) (concat xss).
Proof.
  induction 1 as [|xs s' xss shapes' (_ & _ & Hxs & _) _ IH];
    intros Htl; simpl; [constructor|].
  inversion Htl as [|? ? E Htl']; subst.
  apply Forall_app. split; auto.
Qed.

Lemma concat_axis_0 ts first others :
  Forall2 (fun t s => tshape t = Some s) ts (first :: others) ->
  first <> [] ->
  Forall (agree_off_axis 0 first) others ->
  exists t,
    concat_axis 0 ts = Some t /\
    tshape t
    = Some (replace_nth 0 (Py.sum (map (dim 0) (first :: others))) first) /\
    placed 0 (first :: others) ts t /\
    covered 0 (first :: others) ts t.
Proof.
  intros Hsh Hne Hagree.
  assert (Htails : Forall (fun s => s <> [] /\ tl s = tl first) (first :: others)).
  { constructor; [auto|]. eapply Forall_impl; [|exact Hagree].
    intros s Hs. now apply agree_head. }
  destruct (all_children_rows ts (first :: others) Hsh)
    as (xss & Exss & -> & Hrows).
  { eapply Forall_impl; [|exact Htails]. now intros s [? _]. }
  exists (Arr (concat xss)). cbn [concat_axis]. rewrite Exss.
  split; [reflexivity|]. split; [|split].
  - (* the shape *)
    rewrite <- (rows_lengths _ _ Hrows), <- length_concat_sum.
    destruct first as [|n first]; [congruence|]. cbn [replace_nth].
    assert (Hchildren : Forall (fun x => tshape x = Some first) (concat xss)).
    { apply (rows_children xss ((n :: first) :: others)); auto.
      eapply Forall_impl; [|exact Htails]. now intros s [_ ?]. }
    destruct (concat xss) as [|x xs] eqn:Ec.
    + (* every input is empty, so the first is *)
      inversion Hrows as [|xs0 ? xss' ? (_ & _ & _ & Hnil) _]; subst.
      simpl in Ec. apply app_eq_nil in Ec. destruct Ec as [-> _].
      simpl in Hnil. now rewrite Hnil.
    + rewrite <- Ec in *. apply tshape_rows; [|exact Hchildren].
      rewrite Ec. discriminate.
  - (* the entries *)
    intros j tj idx v Hj Hv.
    rewrite nth_error_map in Hj.
    destruct (nth_error xss j) as [xs|] eqn:Exs; [|discriminate].
    injection Hj as <-.
    destruct idx as [|i idx]; [discriminate|]. cbn [tget] in Hv.
    destruct (nth_error xs i) as [x|] eqn:Ex; [|discriminate].
    cbn [shift_index tget].
    rewrite (offset_rows xss _ j Hrows), (nth_error_concat xss j xs i x Exs Ex).
    exact Hv.
  - (* nothing else *)
    intros idx v Hv.
    destruct idx as [|i idx]; [discriminate|]. cbn [tget] in Hv.
    destruct (nth_error (concat xss) i) as [x|] eqn:Ex; [|discriminate].
    destruct (nth_error_concat_inv xss i x Ex) as (j & xs & i' & Hj & Hi' & ->).
    exists j, (Arr xs), (i' :: idx). split; [|split].
    + now rewrite nth_error_map, Hj.
    + cbn [tget]. now rewrite Hi'.
    + cbn [shift_index]. now rewrite (offset_rows xss _ j Hrows).
Qed.


Lemma row_shapes (i : nat) (xss : list (list (tensor R))) shapes :
  Forall2 rows_of xss shapes ->
  Forall (fun xs => (i < length xs)%nat) xss ->
  Forall2 (fun t s => tshape t = Some s)
          (map (fun xs => nth i xs (Arr [])) xss) (map (@tl Z) shapes).
Proof.
  induction 1 as [|xs s xss' shapes' (_ & _ & Hxs & _) _ IH]; intros Hi;
    simpl; constructor.
  - inversion Hi as [|? ? Hlt _]; subst.
    rewrite Forall_forall in Hxs. apply Hxs. now apply nth_In.
  - apply IH. now inversion Hi.
Qed.

Lemma rows_same_length (n : Z) (xss : list (list (tensor R))) shapes :
  Forall2 rows_of xss shapes ->
  Forall (fun s => dim 0 s = n) shapes ->
  Forall (fun xs => Z.of_nat (length xs) = n) xss.
Proof.
  induction 1 as [|xs s xss' shapes' (_ & Hn & _) _ IH]; intros Hd;
    constructor; inversion Hd; subst; auto.
Qed.

Lemma concat_axis_correct (k : nat) : forall ts first others,
  Forall2 (fun t s => tshape t = Some s) ts (first :: others) ->
  (k < length first)%nat ->
  Forall (agree_off_axis k first) others ->
  exists t,
    concat_axis k ts = Some t /\
    tshape t
    = Some (replace_nth k (Py.sum (map (dim k) (first :: others))) first) /\
    placed k (first :: others) ts t /\
    covered k (first :: others) ts t.
Proof.
  induction k as [|k IH]; intros ts first others Hsh Hk Hagree.
  { apply concat_axis_0; auto. destruct first; simpl in Hk; [lia|discriminate]. }
  destruct first as [|n first]; [simpl in Hk; lia|]. simpl in Hk.
  assert (Hothers : Forall (fun s => exists s', s = n :: s' /\
                                      agree_off_axis k first s') others).
  { eapply Forall_impl; [|exact Hagree]. intros s. apply agree_tail. }
  set (shapes := (n :: first) :: others) in *.
  assert (Hheads : Forall (fun s => s <> [] /\ dim 0 s = n) shapes).
  { constructor; [split; [discriminate|reflexivity]|].
    eapply Forall_impl; [|exact Hothers].
    intros s (s' & -> & _). split; [discriminate|reflexivity]. }
  assert (Htails : Forall (agree_off_axis k first) (map (@tl Z) others)).
  { clear -Hothers. induction Hothers as [|s others (s' & -> & Hs') _ IHo];
      simpl; constructor; auto. }
  destruct (all_children_rows ts shapes Hsh) as (xss & Exss & -> & Hrows).
  { eapply Forall_impl; [|exact Hheads]. now intros s [? _]. }
  assert (Hlens : Forall (fun xs => Z.of_nat (length xs) = n) xss).
  { apply (rows_same_length n xss shapes Hrows).
    eapply Forall_impl; [|exact Hheads]. now intros s [_ ?]. }
  destruct xss as [|xs0 xss]; [inversion Hrows|].
  assert (Hn : Z.of_nat (length xs0) = n) by now inversion Hlens.
  assert (Hpos : (0 < length xs0)%nat).
  { inversion Hrows as [|? ? ? ? (_ & _ & _ & Hnil) _]; subst.
    destruct xs0; simpl; [|lia]. specialize (Hnil eq_refl). simpl in Hnil.
    subst first. simpl in Hk. lia. }
  assert (Hsame : Forall (fun xs => length xs = length xs0) (xs0 :: xss)).
  { eapply Forall_impl; [|exact Hlens]. cbv beta. intros xs Hxs. lia. }
  (* each row of the result *)
  assert (Hrow : forall i, (i < length xs0)%nat ->
            exists t,
              concat_axis k (map (fun xs => nth i xs (Arr [])) (xs0 :: xss))
              = Some t /\
              tshape t
              = Some (replace_nth k
                        (Py.sum (map (dim k) (first :: map (@tl Z) others)))
                        first) /\
              placed k (first :: map (@tl Z) others)
                     (map (fun xs => nth i xs (Arr [])) (xs0 :: xss)) t /\
              covered k (first :: map (@tl Z) others)
                      (map (fun xs => nth i xs (Arr [])) (xs0 :: xss)) t).
  { intros i Hi. apply IH; [|lia|exact Htails].
    apply (row_shapes i (xs0 :: xss) shapes Hrows).
    eapply Forall_impl; [|exact Hsame]. cbv beta. intros xs Hxs. lia. }
  destruct (all_some_map
              (fun i => concat_axis k
                          (map (fun xs => nth i xs (Arr [])) (xs0 :: xss)))
              (fun _ => True)
              (fun t => tshape t
                        = Some (replace_nth k
                                  (Py.sum (map (dim k) (first :: map (@tl Z) others)))
                                  first))
              (seq 0 (length xs0)))
    as (rows & Erows & Hlen & Hshapes & Hnth).
  { apply Forall_forall. intros i Hi. apply in_seq in Hi.
    destruct (Hrow i) as (t & Et & Ht & _); [lia|]. eauto. }
  exists (Arr rows). cbn [concat_axis]. rewrite Exss.
  replace (forallb _ xss) with true.
  2:{ symmetry. apply forallb_forall. intros xs Hxs.
      apply Nat.eqb_eq. inversion Hsame as [|? ? _ Hs]; subst.
      rewrite Forall_forall in Hs. now apply Hs. }
  rewrite Erows. split; [reflexivity|]. split; [|split].
  - (* the shape *)
    rewrite length_seq in Hlen.
    assert (Esum : map (dim (S k)) shapes
                   = map (dim k) (first :: map (@tl Z) others)).
    { unfold shapes. cbn [map]. f_equal. rewrite map_map.
      apply map_ext. intros s. apply dim_tail. }
    assert (Hne : rows <> []) by (destruct rows; simpl in *; [lia|discriminate]).
    rewrite (tshape_rows rows _ Hne Hshapes). cbn [replace_nth].
    do 2 f_equal; [lia|]. do 2 f_equal. symmetry. exact Esum.
  - (* the entries *)
    intros j tj idx v Hj Hv.
    rewrite nth_error_map in Hj.
    destruct (nth_error (xs0 :: xss) j) as [xs|] eqn:Exs; [|discriminate].
    injection Hj as <-.
    destruct idx as [|i idx]; [discriminate|]. cbn [tget] in Hv.
    destruct (nth_error xs i) as [x|] eqn:Ex; [|discriminate].
    assert (Hi : (i < length xs0)%nat).
    { rewrite Forall_forall in Hsame.
      rewrite <- (Hsame xs) by (eapply nth_error_In; eauto).
      apply nth_error_Some. congruence. }
    destruct (Hnth i i) as (row & Enth & Erow).
    { rewrite nth_error_seq.
      destruct (Nat.ltb_spec i (length xs0)); [reflexivity|lia]. }
    destruct (Hrow i Hi) as (t & Et & _ & Hplaced & _).
    assert (t = row) by congruence. subst t.
    cbn [shift_index tget]. rewrite Enth.
    unfold shapes. rewrite offset_tail. cbn [map tl].
    apply (Hplaced j x idx v); auto.
    rewrite nth_error_map, Exs. simpl. f_equal.
    now apply nth_error_nth.
  - (* nothing else *)
    intros idx v Hv.
    destruct idx as [|i idx]; [discriminate|]. cbn [tget] in Hv.
    destruct (nth_error rows i) as [row|] eqn:Enth; [|discriminate].
    assert (Hi : (i < length xs0)%nat).
    { rewrite length_seq in Hlen. rewrite <- Hlen.
      apply nth_error_Some. congruence. }
    destruct (Hnth i i) as (row' & Enth' & Erow).
    { rewrite nth_error_seq.
      destruct (Nat.ltb_spec i (length xs0)); [reflexivity|lia]. }
    assert (row' = row) by congruence. subst row'.
    destruct (Hrow i Hi) as (t & Et & _ & _ & Hcovered).
    assert (t = row) by congruence. subst t.
    destruct (Hcovered idx v Hv) as (j & tj & idx' & Hj & Hget & ->).
    rewrite nth_error_map in Hj.
    destruct (nth_error (xs0 :: xss) j) as [xs|] eqn:Exs; [|discriminate].
    injection Hj as <-.
    assert (Hxs : nth_error xs i = Some (nth i xs (Arr []))).
    { apply nth_error_nth'. rewrite Forall_forall in Hsame.
      rewrite (Hsame xs) by (eapply nth_error_In; eauto). exact Hi. }
    exists j, (Arr xs), (i :: idx'). split; [|split].
    + now rewrite nth_error_map, Exs.
    + cbn [tget]. now rewrite Hxs.
    + cbn [shift_index]. unfold shapes. now rewrite offset_tail.
Qed.

End ConcatFacts.

(** ** ElemwiseSumLayer: the output *)

(** C10. Called with an empty list of inputs, whatever the layer, the class
    of the tensors and the store, [ElemwiseSumLayer.get_output_for] raises
    nothing: the loop has no turn, the store is as it was, and the result is
    [None]. *)
Theorem elemwise_empty_inputs_none :
  forall (cls : tensor_class) (Layer R : Type) (N : Number R)
         (self : ElemwiseSumLayer.layer Layer R) (h : heap R),
    ElemwiseSumLayer.get_output_for cls self [] h = (Ok None, h) /\
    value_of (ElemwiseSumLayer.get_output_for cls self [] h) = Ok None.
Proof.
  intros cls Layer R N self h. unfold ElemwiseSumLayer.get_output_for.
  rewrite combine_nil. split; reflexivity.
Qed.

(** C2. On symbolic tensors [ElemwiseSumLayer.get_output_for] returns the
    weighted sum of the spec, which multiplies every input by its
    coefficient, [1] included, and adds the terms in list order: the test
    [coeff != 1] is not observable.  For a non-empty list of inputs of one
    shape [s] with as many coefficients, the result is a tensor of shape
    [s] that holds, at every index, [coeff_0 * v_0 + coeff_1 * v_1 + ...]
    added from the left, for the numbers [v_i] the inputs hold there.  With
    [A = [1,2,3]], [B = [4,5,6]] and coefficients [[2,1]] it is
    [[6,9,12]]. *)
Theorem elemwise_weighted_sum :
  (forall (Layer R : Type) (N : Number R)
          (self : ElemwiseSumLayer.layer Layer R) (inputs : list ref)
          (h : heap R),
     allocated h inputs ->
     value_of (ElemwiseSumLayer.get_output_for Symbolic self inputs h)
     = weighted_sum (ElemwiseSumLayer.coeffs self) (map (cells h) inputs)) /\
  (forall (Layer R : Type) (N : Number R)
          (self : ElemwiseSumLayer.layer Layer R) (inputs : list ref)
          (h : heap R) (s : shape),
     inputs <> [] ->
     length (ElemwiseSumLayer.coeffs self) = length inputs ->
     allocated h inputs ->
     Forall (fun r => tshape (cells h r) = Some s) inputs ->
     exists out h',
       ElemwiseSumLayer.get_output_for Symbolic self inputs h
       = (Ok (Some out), h') /\
       tshape (cells h' out) = Some s /\
       forall idx vals,
         Forall2 (fun r v => tget (cells h r) idx = Some v) inputs vals ->
         tget (cells h' out) idx
         = sum_in_order (products (ElemwiseSumLayer.coeffs self) vals)) /\
  (exists self : ElemwiseSumLayer.layer unit Z,
     ElemwiseSumLayer.__init__ [tt; tt] (ElemwiseSumLayer.CoeffList [2; 1])
     = Ok self /\
     value_of (ElemwiseSumLayer.get_output_for Symbolic self [0; 1]%nat store_AB)
     = Ok (Some (vec [6; 9; 12]))).
Proof.
  split; [|split].
  - intros Layer R N self inputs h Hin.
    now apply elemwise_symbolic_value.
  - intros Layer R N self inputs h s Hne Hlen Hin Hshapes.
    destruct (elemwise_symbolic_run self inputs h Hin)
      as (res & h' & E & _ & _ & Hv).
    destruct (weighted_sum_pointwise (ElemwiseSumLayer.coeffs self)
                (map (cells h) inputs) s) as (t & Et & Ht & Hpt).
    { destruct inputs; [congruence|discriminate]. }
    { now rewrite length_map. }
    { apply Forall_map. exact Hshapes. }
    rewrite Et in Hv.
    destruct res as [[out|]|e]; simpl in Hv; try discriminate.
    injection Hv as <-.
    exists out, h'. split; [exact E|]. split; [exact Ht|].
    intros idx vals Hvals. apply Hpt.
    clear -Hvals. induction Hvals; simpl; constructor; auto.
  - eexists. split; reflexivity.
Qed.

Lemma elemwise_weighted_sum_witness :
  exists out h',
    ElemwiseSumLayer.get_output_for Symbolic
      {| ElemwiseSumLayer.input_layers := [tt; tt];
         ElemwiseSumLayer.coeffs := [2; 1] |} [0; 1]%nat store_AB
    = (Ok (Some out), h') /\
    tshape (cells h' out) = Some [3] /\
    forall idx vals,
      Forall2 (fun r v => tget (cells store_AB r) idx = Some v)
              [0; 1]%nat vals ->
      tget (cells h' out) idx = sum_in_order (products [2; 1] vals).
Proof.
  apply (proj1 (proj2 elemwise_weighted_sum) unit Z Number_Z
           {| ElemwiseSumLayer.input_layers := [tt; tt];
              ElemwiseSumLayer.coeffs := [2; 1] |} [0; 1]%nat store_AB [3]).
  - discriminate.
  - reflexivity.
  - repeat constructor.
  - repeat constructor.
Defined.

(** C5. The constructor turns a single coefficient [c] into the list
    [[c, ..., c]] with one entry per input layer, so the layer it builds is
    the layer built from that list, and every method behaves the same on
    both.  With the single coefficient [1] and three inputs,
    [get_output_for] returns [(x + y) + z], the elementwise sum of the
    inputs as they are. *)
Theorem scalar_coeff_broadcast :
  forall (Layer R : Type) (N : Number R),
    (forall (input_layers : list Layer) (c : R),
       ElemwiseSumLayer.__init__ input_layers (ElemwiseSumLayer.CoeffScalar c)
       = ElemwiseSumLayer.__init__ input_layers
           (ElemwiseSumLayer.CoeffList (repeat c (length input_layers))) /\
       ElemwiseSumLayer.__init__ input_layers (ElemwiseSumLayer.CoeffScalar c)
       = Ok {| ElemwiseSumLayer.input_layers := input_layers;
               ElemwiseSumLayer.coeffs := repeat c (length input_layers) |}) /\
    (forall (l1 l2 l3 : Layer) (x y z : ref) (h : heap R),
       allocated h [x; y; z] ->
       exists self,
         ElemwiseSumLayer.__init__ [l1; l2; l3] ElemwiseSumLayer.default_coeffs
         = Ok self /\
         value_of (ElemwiseSumLayer.get_output_for Symbolic self [x; y; z] h)
         = plain_sum3 (cells h x) (cells h y) (cells h z)).
Proof.
  intros Layer R N. split.
  - intros input_layers c. unfold ElemwiseSumLayer.__init__.
    rewrite repeat_length, Nat.eqb_refl. split; reflexivity.
  - intros l1 l2 l3 x y z h Hin. eexists. split; [reflexivity|].
    rewrite (elemwise_symbolic_value _ _ _ Hin).
    unfold weighted_sum, plain_sum3. cbn [length repeat combine map sum_loop
      ElemwiseSumLayer.coeffs].
    rewrite !tmul_one.
    destruct (tadd (cells h x) (cells h y)) as [s|]; [|reflexivity].
    destruct (tadd s (cells h z)); reflexivity.
Qed.

Lemma scalar_coeff_broadcast_witness :
  exists self : ElemwiseSumLayer.layer unit Z,
    ElemwiseSumLayer.__init__ [tt; tt; tt] ElemwiseSumLayer.default_coeffs
    = Ok self /\
    value_of (ElemwiseSumLayer.get_output_for Symbolic self [0; 1; 0]%nat
                store_AB)
    = plain_sum3 (vec [1; 2; 3]) (vec [4; 5; 6]) (vec [1; 2; 3]).
Proof.
  apply (proj2 (scalar_coeff_broadcast unit Z Number_Z)
           tt tt tt 0%nat 1%nat 0%nat store_AB).
  repeat constructor.
Defined.

(** ** Both layers: no effect on the inputs *)

Section ConcatRun.
Context {Layer R : Type}.
Implicit Types (self : ConcatLayer.layer Layer) (h : heap R)
  (inputs : list ref).

(** A call allocates the concatenation, or raises and leaves the store. *)
Lemma concat_run self inputs h :
  exists res h',
    ConcatLayer.get_output_for self inputs h = (res, h') /\
    extends h h' /\
    tensor_of (res, h')
    = concatenate (map (cells h) inputs) (ConcatLayer.axis self).
Proof.
  unfold ConcatLayer.get_output_for, utils_concatenate.
  destruct (concatenate (map (cells h) inputs) (ConcatLayer.axis self))
    as [t|e].
  - exists (Ok (next h)), (extend h t). split; [reflexivity|].
    split; [apply extends_extend|]. simpl. now rewrite Nat.eqb_refl.
  - exists (Raise e), h. split; [reflexivity|].
    split; [apply extends_refl|reflexivity].
Qed.

End ConcatRun.

(** C7. On symbolic tensors a call of [get_output_for], of either layer,
    changes no object that was in the store: the inputs hold after the call
    what they held before.  The tensor returned (or the exception raised)
    depends on the tensors the inputs hold and on nothing else: calling
    again, in the store the first call left or in any other store whose
    inputs hold the same tensors, gives the same. *)
Theorem get_output_for_pure :
  forall (Layer R : Type) (N : Number R),
    (forall (self : ElemwiseSumLayer.layer Layer R) (inputs : list ref)
            (h : heap R),
       allocated h inputs ->
       exists res h',
         ElemwiseSumLayer.get_output_for Symbolic self inputs h = (res, h') /\
         extends h h' /\
         map (cells h') inputs = map (cells h) inputs /\
         value_of (ElemwiseSumLayer.get_output_for Symbolic self inputs h')
         = value_of (res, h') /\
         forall inputs2 h2,
           allocated h2 inputs2 ->
           map (cells h2) inputs2 = map (cells h) inputs ->
           value_of (ElemwiseSumLayer.get_output_for Symbolic self inputs2 h2)
           = value_of (res, h')) /\
    (forall (self : ConcatLayer.layer Layer) (inputs : list ref) (h : heap R),
       allocated h inputs ->
       exists res h',
         ConcatLayer.get_output_for self inputs h = (res, h') /\
         extends h h' /\
         map (cells h') inputs = map (cells h) inputs /\
         tensor_of (ConcatLayer.get_output_for self inputs h')
         = tensor_of (res, h') /\
         forall inputs2 (h2 : heap R),
           map (cells h2) inputs2 = map (cells h) inputs ->
           tensor_of (ConcatLayer.get_output_for self inputs2 h2)
           = tensor_of (res, h')).
Proof.
  intros Layer R N. split.
  - intros self inputs h Hin.
    destruct (elemwise_symbolic_run self inputs h Hin)
      as (res & h' & E & Hext & _ & Hv).
    pose proof (extends_map_cells h h' inputs Hext Hin) as Hsame.
    assert (Hother : forall inputs2 h2,
               allocated h2 inputs2 ->
               map (cells h2) inputs2 = map (cells h) inputs ->
               value_of (ElemwiseSumLayer.get_output_for Symbolic self inputs2 h2)
               = value_of (res, h')).
    { intros inputs2 h2 Hin2 Hvals.
      rewrite (elemwise_symbolic_value _ _ _ Hin2), Hvals.
      now rewrite Hv. }
    exists res, h'. split; [exact E|]. split; [exact Hext|].
    split; [exact Hsame|]. split; [|exact Hother].
    apply Hother; [|exact Hsame].
    eapply allocated_extends; eauto.
  - intros self inputs h Hin.
    destruct (concat_run self inputs h) as (res & h' & E & Hext & Hv).
    pose proof (extends_map_cells h h' inputs Hext Hin) as Hsame.
    assert (Hother : forall inputs2 (h2 : heap R),
               map (cells h2) inputs2 = map (cells h) inputs ->
               tensor_of (ConcatLayer.get_output_for self inputs2 h2)
               = tensor_of (res, h')).
    { intros inputs2 h2 Hvals.
      destruct (concat_run self inputs2 h2) as (res2 & h2' & E2 & _ & Hv2).
      now rewrite E2, Hv2, Hvals, Hv. }
    exists res, h'. split; [exact E|]. split; [exact Hext|].
    split; [exact Hsame|]. split; [|exact Hother].
    now apply Hother.
Qed.

Lemma get_output_for_pure_witness :
  exists res h',
    ElemwiseSumLayer.get_output_for Symbolic
      {| ElemwiseSumLayer.input_layers := [tt; tt];
         ElemwiseSumLayer.coeffs := [2; 1] |} [0; 1]%nat store_AB
    = (res, h') /\
    extends store_AB h' /\
    map (cells h') [0; 1]%nat = map (cells store_AB) [0; 1]%nat /\
    value_of (ElemwiseSumLayer.get_output_for Symbolic
                {| ElemwiseSumLayer.input_layers := [tt; tt];
                   ElemwiseSumLayer.coeffs := [2; 1] |} [0; 1]%nat h')
    = value_of (res, h') /\
    forall inputs2 h2,
      allocated h2 inputs2 ->
      map (cells h2) inputs2 = map (cells store_AB) [0; 1]%nat ->
      value_of (ElemwiseSumLayer.get_output_for Symbolic
                  {| ElemwiseSumLayer.input_layers := [tt; tt];
                     ElemwiseSumLayer.coeffs := [2; 1] |} inputs2 h2)
      = value_of (res, h').
Proof.
  apply (proj1 (get_output_for_pure unit Z Number_Z)
           {| ElemwiseSumLayer.input_layers := [tt; tt];
              ElemwiseSumLayer.coeffs := [2; 1] |} [0; 1]%nat store_AB).
  repeat constructor.
Defined.

(** The store decides: were the tensors of a class with in-place operators
    (arrays, not symbolic variables), the same call would leave its result
    in the first input, and a second call would return another tensor. *)
Remark in_place_class_overwrites_first_input :
  let self : ElemwiseSumLayer.layer unit Z :=
    {| ElemwiseSumLayer.input_layers := [tt; tt];
       ElemwiseSumLayer.coeffs := [2; 1] |} in
  let first := ElemwiseSumLayer.get_output_for InPlace self [0; 1]%nat store_AB in
  let second := ElemwiseSumLayer.get_output_for InPlace self [0; 1]%nat (snd first) in
  fst first = Ok (Some 0%nat) /\
  cells (snd first) 0%nat = vec [6; 9; 12] /\
  value_of second = Ok (Some (vec [16; 23; 30])).
Proof. repeat split. Qed.

(** ** ConcatLayer: the output *)

Lemma size_along_dim (axis : Z) (k : nat) (first s : shape) :
  norm_index (length first) axis = Some k ->
  length s = length first ->
  size_along axis s = dim k s.
Proof.
  intros Hk Hlen. rewrite <- Hlen in Hk.
  destruct (getitem_norm s axis k Hk) as (x & Ex & Eget).
  unfold size_along, dim. rewrite Eget. symmetry.
  now apply nth_error_nth.
Qed.

Lemma sizes_along_dims (axis : Z) (k : nat) (first : shape)
      (others : list shape) :
  norm_index (length first) axis = Some k ->
  Forall (agree_off_axis k first) others ->
  map (size_along axis) (first :: others) = map (dim k) (first :: others).
Proof.
  intros Hk Hagree. cbn [map]. f_equal.
  - now apply (size_along_dim axis k first).
  - induction Hagree as [|s others [Hlen _] _ IH]; simpl; [reflexivity|].
    f_equal; [|exact IH]. now apply (size_along_dim axis k first).
Qed.

(** C6. For a non-empty list of input tensors whose shapes agree on every
    dimension but the layer's axis (a valid index of the shapes, naming
    their dimension [k]), [ConcatLayer.get_output_for] returns a new tensor
    that is their concatenation along the axis in list order: its shape is
    the shape [get_output_shape_for] computes from the input shapes, every
    entry of the [j]-th input sits in it at the same index, moved along
    dimension [k] by the sizes of the inputs before it, and it has no other
    entry.  With [A = [[1,2],[3,4]]], [B = [[5,6],[7,8]]] and axis [0] it
    is [[[1,2],[3,4],[5,6],[7,8]]]. *)
Theorem concat_output_is_concatenation :
  (forall (Layer R : Type) (self : ConcatLayer.layer Layer)
          (inputs : list ref) (h : heap R) (first : shape)
          (others : list shape) (k : nat),
     Forall2 (fun r s => tshape (cells h r) = Some s) inputs (first :: others) ->
     norm_index (length first) (ConcatLayer.axis self) = Some k ->
     Forall (agree_off_axis k first) others ->
     exists out h' s,
       ConcatLayer.get_output_for self inputs h = (Ok out, h') /\
       ConcatLayer.get_output_shape_for self (first :: others) = Ok s /\
       tshape (cells h' out) = Some s /\
       placed k (first :: others) (map (cells h) inputs) (cells h' out) /\
       covered k (first :: others) (map (cells h) inputs) (cells h' out)) /\
  (forall layers : list unit,
     tensor_of (ConcatLayer.get_output_for (ConcatLayer.__init__ layers 0)
                  [0; 1]%nat store_mats)
     = Ok (mat [[1; 2]; [3; 4]; [5; 6]; [7; 8]])).
Proof.
  split; [|reflexivity].
  intros Layer R self inputs h first others k Hshapes Hk Hagree.
  assert (Hvals : Forall2 (fun t s => tshape t = Some s)
                    (map (cells h) inputs) (first :: others)).
  { clear -Hshapes. induction Hshapes; simpl; constructor; auto. }
  destruct (norm_index_Some _ _ _ Hk) as [Hlt _].
  destruct (concat_axis_correct k _ first others Hvals Hlt Hagree)
    as (t & Et & Ht & Hplaced & Hcovered).
  assert (Hall : Forall (valid_axis (ConcatLayer.axis self)) (first :: others)).
  { constructor.
    - unfold valid_axis. destruct (norm_index_Some _ _ _ Hk). lia.
    - eapply Forall_impl; [|exact Hagree].
      intros s' Hs'. eapply agree_off_axis_valid; eauto. }
  destruct (concat_shape_run self first others Hall) as (k' & Hk' & Erun).
  assert (k' = k) by congruence. subst k'.
  rewrite (sizes_along_dims _ k first others Hk Hagree) in Erun.
  exists (next h), (extend h t). eexists.
  split; [|split; [exact Erun|split]].
  - unfold ConcatLayer.get_output_for, utils_concatenate, concatenate.
    destruct inputs as [|r inputs]; [inversion Hshapes|].
    cbn [map] in *. inversion Hvals as [|? ? ? ? Hfirst _]; subst.
    rewrite Hfirst, Hk, Et. reflexivity.
  - rewrite cells_extend_new. exact Ht.
  - rewrite cells_extend_new. split; [exact Hplaced | exact Hcovered].
Qed.

(** The two matrices of the example, along their second axis. *)
Lemma concat_output_is_concatenation_witness :
  exists out h' s,
    ConcatLayer.get_output_for (ConcatLayer.__init__ [tt; tt] 1)
      [0; 1]%nat store_mats = (Ok out, h') /\
    ConcatLayer.get_output_shape_for (ConcatLayer.__init__ [tt; tt] 1)
      [[2; 2]; [2; 2]] = Ok s /\
    tshape (cells h' out) = Some s /\
    placed 1 [[2; 2]; [2; 2]] (map (cells store_mats) [0; 1]%nat)
           (cells h' out) /\
    covered 1 [[2; 2]; [2; 2]] (map (cells store_mats) [0; 1]%nat)
            (cells h' out).
Proof.
  apply (proj1 concat_output_is_concatenation unit Z
           (ConcatLayer.__init__ [tt; tt] 1) [0; 1]%nat store_mats
           [2; 2] [[2; 2]] 1%nat).
  - repeat constructor.
  - reflexivity.
  - constructor; [|constructor]. split; [reflexivity|]. intros j _. reflexivity.
Defined.

(** ** ConcatLayer: when the output shape exists, and how it composes *)

Lemma valid_axis_dec (axis : Z) (s : shape) :
  {valid_axis axis s} + {~ valid_axis axis s}.
Proof.
  unfold valid_axis.
  destruct (Z_le_dec (- Z.of_nat (length s)) axis);
    destruct (Z_lt_dec axis (Z.of_nat (length s))); (left; lia) || (right; lia).
Qed.

Lemma getitem_out_of_range (s : shape) (axis : Z) :
  ~ valid_axis axis s -> getitem s axis = Raise IndexError.
Proof.
  intros Hv. unfold getitem.
  destruct (norm_index (length s) axis) as [k|] eqn:E; [|reflexivity].
  exfalso. apply Hv. unfold valid_axis.
  destruct (norm_index_Some _ _ _ E). lia.
Qed.

Lemma comprehension_sizes_fail (axis : Z) (shapes : list shape) :
  ~ Forall (valid_axis axis) shapes ->
  comprehension (fun input_shape => getitem input_shape axis) shapes
  = Raise IndexError.
Proof.
  induction shapes as [|s shapes IH]; intros Hn.
  - elim Hn. constructor.
  - cbn [comprehension]. destruct (valid_axis_dec axis s) as [Hs|Hs].
    + rewrite (getitem_valid s axis Hs). cbn [bind].
      rewrite IH; [reflexivity|]. intros Hall. apply Hn. now constructor.
    + now rewrite (getitem_out_of_range s axis Hs).
Qed.

Lemma sum_app (xs ys : list Z) : Py.sum (xs ++ ys) = Py.sum xs + Py.sum ys.
Proof.
  induction xs as [|x xs IH]; simpl app.
  - unfold Py.sum at 2. simpl. lia.
  - rewrite !sum_cons, IH. lia.
Qed.

Section ListUpdates.
Context {A : Type}.

Lemma replace_nth_twice (k : nat) (v w : A) (s : list A) :
  replace_nth k w (replace_nth k v s) = replace_nth k w s.
Proof.
  revert k. induction s as [|x s IH]; intros [|k]; simpl; auto.
  now rewrite IH.
Qed.

Lemma replace_nth_same (k : nat) (v : A) (s : list A) :
  nth_error s k = Some v -> replace_nth k v s = s.
Proof.
  revert k. induction s as [|x s IH]; intros [|k]; simpl; intros E;
    try discriminate.
  - now injection E as ->.
  - now rewrite IH.
Qed.

End ListUpdates.

Section ConcatShapeMore.
Context {Layer : Type}.
Implicit Types (self : ConcatLayer.layer Layer) (first s : shape)
  (shapes others : list shape).

Lemma concat_shape_fail self shapes :
  ~ (shapes <> [] /\ Forall (valid_axis (ConcatLayer.axis self)) shapes) ->
  ConcatLayer.get_output_shape_for self shapes = Raise IndexError.
Proof.
  intros Hn. unfold ConcatLayer.get_output_shape_for.
  destruct (Forall_dec _ (valid_axis_dec (ConcatLayer.axis self)) shapes)
    as [Hall|Hall].
  - destruct shapes as [|first others].
    + reflexivity.
    + elim Hn. split; [discriminate|exact Hall].
  - now rewrite (comprehension_sizes_fail _ _ Hall).
Qed.

(** The shape the method returns and its size along the axis. *)
Lemma concat_shape_ok_inv self shapes out :
  ConcatLayer.get_output_shape_for self shapes = Ok out ->
  exists first others k,
    shapes = first :: others /\
    Forall (valid_axis (ConcatLayer.axis self)) shapes /\
    norm_index (length first) (ConcatLayer.axis self) = Some k /\
    out = replace_nth k
            (Py.sum (map (size_along (ConcatLayer.axis self)) shapes)) first.
Proof.
  intros E.
  destruct shapes as [|first others].
  { discriminate. }
  destruct (Forall_dec _ (valid_axis_dec (ConcatLayer.axis self))
              (first :: others)) as [Hall|Hall].
  - destruct (concat_shape_run self first others Hall) as (k & Hk & Erun).
    exists first, others, k. repeat split; auto. congruence.
  - rewrite concat_shape_fail in E; [discriminate|]. tauto.
Qed.

Lemma size_along_replaced (axis : Z) (k : nat) (v : Z) s :
  norm_index (length s) axis = Some k ->
  size_along axis (replace_nth k v s) = v.
Proof.
  intros Hk. unfold size_along, getitem.
  rewrite length_replace_nth, Hk.
  destruct (norm_index_Some _ _ _ Hk) as [Hlt _].
  now rewrite nth_error_replace_nth_same.
Qed.

Lemma valid_axis_replaced (axis : Z) (k : nat) (v : Z) s :
  valid_axis axis s -> valid_axis axis (replace_nth k v s).
Proof. unfold valid_axis. now rewrite length_replace_nth. Qed.

(** X1. [ConcatLayer.get_output_shape_for] returns a shape exactly when the
    list of input shapes is not empty and the axis is a valid index of each
    of them; in every other case it raises [IndexError], and it raises
    nothing else. *)
Theorem concat_shape_ok_iff self shapes :
  ((exists out, ConcatLayer.get_output_shape_for self shapes = Ok out)
   <-> shapes <> [] /\ Forall (valid_axis (ConcatLayer.axis self)) shapes) /\
  (ConcatLayer.get_output_shape_for self shapes = Raise IndexError
   <-> ~ (shapes <> [] /\ Forall (valid_axis (ConcatLayer.axis self)) shapes)).
Proof.
  split; split.
  - intros [out E].
    destruct (concat_shape_ok_inv self shapes out E)
      as (first & others & k & -> & Hall & _).
    split; [discriminate|exact Hall].
  - intros [Hne Hall]. destruct shapes as [|first others]; [congruence|].
    destruct (concat_shape_run self first others Hall) as (k & _ & Erun).
    eauto.
  - intros E [Hne Hall]. destruct shapes as [|first others]; [congruence|].
    destruct (concat_shape_run self first others Hall) as (k & _ & Erun).
    congruence.
  - apply concat_shape_fail.
Qed.

(** X3. Output shapes nest: when two lists of input shapes each have an
    output shape, the output shape of the two lists put together is the
    output shape of those two output shapes, so a [ConcatLayer] over
    [ConcatLayer]s of the same axis has the shape of the flat one.  Over a
    single input the output shape is the input's. *)
Theorem concat_shape_nests self :
  (forall shapes1 shapes2 out1 out2,
     ConcatLayer.get_output_shape_for self shapes1 = Ok out1 ->
     ConcatLayer.get_output_shape_for self shapes2 = Ok out2 ->
     ConcatLayer.get_output_shape_for self (shapes1 ++ shapes2)
     = ConcatLayer.get_output_shape_for self [out1; out2] /\
     exists out,
       ConcatLayer.get_output_shape_for self (shapes1 ++ shapes2) = Ok out) /\
  (forall s,
     valid_axis (ConcatLayer.axis self) s ->
     ConcatLayer.get_output_shape_for self [s] = Ok s).
Proof.
  split.
  - intros shapes1 shapes2 out1 out2 E1 E2.
    destruct (concat_shape_ok_inv self shapes1 out1 E1)
      as (f1 & o1 & k1 & -> & Hall1 & Hk1 & ->).
    destruct (concat_shape_ok_inv self shapes2 out2 E2)
      as (f2 & o2 & k2 & -> & Hall2 & Hk2 & ->).
    assert (Hall : Forall (valid_axis (ConcatLayer.axis self))
                     (f1 :: (o1 ++ f2 :: o2))).
    { change (f1 :: o1 ++ f2 :: o2) with ((f1 :: o1) ++ f2 :: o2).
      apply Forall_app. now split. }
    destruct (concat_shape_run self f1 (o1 ++ f2 :: o2) Hall)
      as (k & Hk & Erun).
    assert (k = k1) by congruence. subst k.
    set (axis := ConcatLayer.axis self) in *.
    set (v1 := Py.sum (map (size_along axis) (f1 :: o1))) in *.
    set (v2 := Py.sum (map (size_along axis) (f2 :: o2))) in *.
    assert (Hpair : Forall (valid_axis axis)
                      [replace_nth k1 v1 f1; replace_nth k2 v2 f2]).
    { apply Forall_cons; [|apply Forall_cons; [|apply Forall_nil]];
        apply valid_axis_replaced.
      - now inversion Hall1.
      - now inversion Hall2. }
    destruct (concat_shape_run self _ _ Hpair) as (k & Hk' & Erun').
    fold axis in Hk', Erun'. rewrite length_replace_nth in Hk'.
    assert (k = k1) by congruence. subst k.
    cbn [app]. split; [|eauto].
    rewrite Erun. etransitivity; [|symmetry; exact Erun'].
    f_equal. rewrite replace_nth_twice. f_equal.
    cbn [map]. rewrite !size_along_replaced by assumption.
    change (size_along axis f1 :: map (size_along axis) (o1 ++ f2 :: o2))
      with (map (size_along axis) ((f1 :: o1) ++ f2 :: o2)).
    rewrite map_app, sum_app. fold v1 v2.
    unfold Py.sum at 1. simpl. lia.
  - intros s Hs.
    assert (Hall : Forall (valid_axis (ConcatLayer.axis self)) [s])
      by now constructor.
    destruct (concat_shape_run self s [] Hall) as (k & Hk & Erun).
    rewrite Erun. apply (f_equal Ok). apply replace_nth_same.
    destruct (getitem_norm s _ k Hk) as (x & Ex & Eget).
    cbn [map]. rewrite sum_cons. unfold size_along. rewrite Eget, Ex.
    f_equal. unfold Py.sum. simpl. lia.
Qed.

End ConcatShapeMore.

Lemma numel_cons (n : Z) (s : shape) : numel (n :: s) = n * numel s.
Proof. reflexivity. Qed.

Lemma norm_index_nonneg (n k : nat) :
  (k < n)%nat -> norm_index n (Z.of_nat k) = Some k.
Proof.
  intros Hk. unfold norm_index.
  replace (0 <=? Z.of_nat k) with true by (symmetry; apply Z.leb_le; lia).
  replace (Z.of_nat k <? Z.of_nat n) with true by (symmetry; apply Z.ltb_lt; lia).
  simpl. now rewrite Nat2Z.id.
Qed.

Lemma norm_index_from_end (n k : nat) :
  (k < n)%nat -> norm_index n (Z.of_nat k - Z.of_nat n) = Some k.
Proof.
  intros Hk. unfold norm_index.
  replace (0 <=? Z.of_nat k - Z.of_nat n) with false
    by (symmetry; apply Z.leb_gt; lia).
  replace (- Z.of_nat n <=? Z.of_nat k - Z.of_nat n) with true
    by (symmetry; apply Z.leb_le; lia).
  replace (Z.of_nat k - Z.of_nat n <? 0) with true
    by (symmetry; apply Z.ltb_lt; lia).
  simpl. f_equal. lia.
Qed.

Lemma sum_scaled {A : Type} (f : A -> Z) (c : Z) (xs : list A) :
  Py.sum (map (fun x => f x * c) xs) = Py.sum (map f xs) * c.
Proof.
  induction xs as [|x xs IH]; [reflexivity|].
  cbn [map]. rewrite !sum_cons, IH. lia.
Qed.

Lemma sum_scaled_l {A : Type} (f : A -> Z) (c : Z) (xs : list A) :
  Py.sum (map (fun x => c * f x) xs) = c * Py.sum (map f xs).
Proof.
  induction xs as [|x xs IH]; [unfold Py.sum; simpl; lia|].
  cbn [map]. rewrite !sum_cons, IH. lia.
Qed.

Lemma sum_permutation (xs ys : list Z) :
  Permutation xs ys -> Py.sum xs = Py.sum ys.
Proof.
  induction 1 as [|x xs ys _ IH|x y xs|xs ys zs _ IH1 _ IH2].
  - reflexivity.
  - rewrite !sum_cons. lia.
  - rewrite !sum_cons. lia.
  - congruence.
Qed.

Lemma agree_off_axis_refl (k : nat) (s : shape) : agree_off_axis k s s.
Proof. split; auto. Qed.

Lemma replace_nth_agree (k : nat) (v : Z) (first s : shape) :
  agree_off_axis k first s ->
  replace_nth k v s = replace_nth k v first.
Proof.
  intros [Hlen Hnth]. apply nth_error_ext. intros j.
  destruct (Nat.eq_dec j k) as [->|Hj].
  - destruct (Nat.lt_ge_cases k (length first)) as [Hlt|Hge].
    + rewrite !nth_error_replace_nth_same; auto. lia.
    + transitivity (@None Z); [|symmetry];
        apply nth_error_None; rewrite length_replace_nth; lia.
  - rewrite !nth_error_replace_nth_other by exact Hj. now apply Hnth.
Qed.

(** The entries of the replaced shape, counted along dimension [k]. *)
Lemma numel_replaced (k : nat) : forall (first : shape) (others : list shape),
  (k < length first)%nat ->
  Forall (agree_off_axis k first) others ->
  numel (replace_nth k (Py.sum (map (dim k) (first :: others))) first)
  = Py.sum (map numel (first :: others)).
Proof.
  induction k as [|k IH]; intros first others Hk Hagree.
  - destruct first as [|n first]; [simpl in Hk; lia|].
    cbn [replace_nth]. rewrite numel_cons, <- sum_scaled.
    f_equal. cbn [map]. f_equal.
    apply map_ext_in. intros s Hs. rewrite Forall_forall in Hagree.
    destruct (agree_head (n :: first) s) as [Hne Htl];
      [discriminate|now apply Hagree|].
    destruct s as [|m s]; [congruence|]. simpl in Htl. subst s. reflexivity.
  - destruct first as [|n first]; [simpl in Hk; lia|]. simpl in Hk.
    assert (Hothers : Forall (fun s => exists s', s = n :: s' /\
                                        agree_off_axis k first s') others).
    { eapply Forall_impl; [|exact Hagree]. intros s. apply agree_tail. }
    assert (Htails : Forall (agree_off_axis k first) (map (@tl Z) others)).
    { clear -Hothers. induction Hothers as [|s others (s' & -> & Hs') _ IHo];
        simpl; constructor; auto. }
    assert (Edims : map (dim (S k)) ((n :: first) :: others)
                    = map (dim k) (first :: map (@tl Z) others)).
    { cbn [map]. f_equal. rewrite map_map. apply map_ext.
      intros s. apply dim_tail. }
    cbn [replace_nth]. rewrite numel_cons.
    pose proof (IH first (map (@tl Z) others) ltac:(lia) Htails) as E.
    transitivity (n * Py.sum (map numel (first :: map (@tl Z) others))).
    { apply (f_equal (Z.mul n)). etransitivity; [|exact E].
      apply (f_equal (fun l => numel (replace_nth k (Py.sum l) first))).
      exact Edims. }
    rewrite <- sum_scaled_l. f_equal. cbn [map]. f_equal.
    rewrite map_map. apply map_ext_in. intros s Hs.
    rewrite Forall_forall in Hothers.
    destruct (Hothers s Hs) as (s' & -> & _). reflexivity.
Qed.

Section ConcatShapeOrder.
Context {Layer : Type}.
Implicit Types (self : ConcatLayer.layer Layer) (first s : shape)
  (shapes others : list shape).

(** X2. An axis counted from the end names the same dimension as the axis
    counted from the front: on input shapes of [n] dimensions the layers
    with axis [k - n] and with axis [k], [0 <= k < n], compute the same
    output shape (or fail alike on the empty list). *)
Theorem concat_shape_axis_from_end (input_layers : list Layer) shapes
        (n k : nat) :
  (k < n)%nat ->
  Forall (fun s => length s = n) shapes ->
  ConcatLayer.get_output_shape_for
    (ConcatLayer.__init__ input_layers (Z.of_nat k - Z.of_nat n)) shapes
  = ConcatLayer.get_output_shape_for
      (ConcatLayer.__init__ input_layers (Z.of_nat k)) shapes.
Proof.
  intros Hk Hlen. destruct shapes as [|first others]; [reflexivity|].
  set (back := ConcatLayer.__init__ input_layers (Z.of_nat k - Z.of_nat n)).
  set (front := ConcatLayer.__init__ input_layers (Z.of_nat k)).
  assert (Hback : Forall (valid_axis (ConcatLayer.axis back))
                       (first :: others)).
  { eapply Forall_impl; [|exact Hlen]. cbv beta. intros s Hs.
    unfold valid_axis. simpl. lia. }
  assert (Hfront : Forall (valid_axis (ConcatLayer.axis front))
                        (first :: others)).
  { eapply Forall_impl; [|exact Hlen]. cbv beta. intros s Hs.
    unfold valid_axis. simpl. lia. }
  destruct (concat_shape_run back first others Hback) as (kb & Hkb & Eb).
  destruct (concat_shape_run front first others Hfront) as (kf & Hkf & Ef).
  assert (Hfirst : length first = n) by now inversion Hlen.
  simpl in Hkb, Hkf. rewrite Hfirst in Hkb, Hkf.
  rewrite norm_index_from_end in Hkb by exact Hk.
  rewrite norm_index_nonneg in Hkf by exact Hk.
  injection Hkb as <-. injection Hkf as <-.
  rewrite Eb, Ef. do 3 f_equal.
  apply map_ext_in. intros s Hs. rewrite Forall_forall in Hlen.
  unfold size_along, getitem. simpl. rewrite (Hlen s Hs).
  now rewrite norm_index_from_end, norm_index_nonneg.
Qed.

(** X4. Concatenation keeps every entry: for input shapes that agree off
    the axis, the output shape has as many entries as all the inputs
    together. *)
Theorem concat_shape_counts_entries self first others (k : nat) :
  norm_index (length first) (ConcatLayer.axis self) = Some k ->
  Forall (agree_off_axis k first) others ->
  exists out,
    ConcatLayer.get_output_shape_for self (first :: others) = Ok out /\
    numel out = Py.sum (map numel (first :: others)).
Proof.
  intros Hk Hagree.
  assert (Hall : Forall (valid_axis (ConcatLayer.axis self)) (first :: others)).
  { constructor.
    - unfold valid_axis. destruct (norm_index_Some _ _ _ Hk). lia.
    - eapply Forall_impl; [|exact Hagree].
      intros s Hs. eapply agree_off_axis_valid; eauto. }
  destruct (concat_shape_run self first others Hall) as (k' & Hk' & Erun).
  assert (k' = k) by congruence. subst k'.
  rewrite (sizes_along_dims _ k first others Hk Hagree) in Erun.
  eexists. split; [exact Erun|].
  apply numel_replaced; auto. now destruct (norm_index_Some _ _ _ Hk).
Qed.

(** X5. For input shapes that agree off the axis, the output shape does
    not depend on the order of the inputs. *)
Theorem concat_shape_any_order self first others (k : nat) shapes :
  norm_index (length first) (ConcatLayer.axis self) = Some k ->
  Forall (agree_off_axis k first) others ->
  Permutation (first :: others) shapes ->
  ConcatLayer.get_output_shape_for self shapes
  = ConcatLayer.get_output_shape_for self (first :: others).
Proof.
  intros Hk Hagree Hperm.
  assert (Hall0 : Forall (agree_off_axis k first) (first :: others)).
  { constructor; [apply agree_off_axis_refl|exact Hagree]. }
  assert (Hall1 : Forall (agree_off_axis k first) shapes).
  { eapply Permutation_Forall; eauto. }
  assert (Hvalid : forall l, Forall (agree_off_axis k first) l ->
                             Forall (valid_axis (ConcatLayer.axis self)) l).
  { intros l Hl. eapply Forall_impl; [|exact Hl].
    intros s Hs. eapply agree_off_axis_valid; eauto. }
  destruct shapes as [|first' others'].
  { apply Permutation_sym, Permutation_nil in Hperm. discriminate. }
  destruct (concat_shape_run self first others (Hvalid _ Hall0))
    as (k0 & Hk0 & E0).
  destruct (concat_shape_run self first' others' (Hvalid _ Hall1))
    as (k1 & Hk1 & E1).
  assert (Hfirst' : agree_off_axis k first first') by now inversion Hall1.
  assert (k0 = k) by congruence. subst k0.
  assert (k1 = k).
  { destruct Hfirst' as [Hlen _]. rewrite Hlen in Hk1. congruence. }
  subst k1. rewrite E0, E1. apply (f_equal Ok).
  rewrite (replace_nth_agree k _ first first' Hfirst'). f_equal.
  apply sum_permutation. apply Permutation_map. now apply Permutation_sym.
Qed.

End ConcatShapeOrder.

(** ** ElemwiseSumLayer: more on construction, shapes and the loop *)

Lemma combine_all_inputs {A B : Type} (xs : list A) : forall (ys : list B),
  length ys = length xs -> map snd (combine xs ys) = ys.
Proof.
  induction xs as [|x xs IH]; intros [|y ys] Hlen; simpl in *;
    try discriminate; auto.
  f_equal. apply IH. lia.
Qed.

Section ElemwiseMore.
Context {Layer R : Type} `{Number R}.
Implicit Types (self : ElemwiseSumLayer.layer Layer R) (h : heap R)
  (inputs : list ref) (shapes : list shape) (s : shape).

Lemma elemwise_shape_ok self shapes s :
  ElemwiseSumLayer.get_output_shape_for self shapes = Ok s <->
  shapes <> [] /\ Forall (eq s) shapes.
Proof.
  destruct shapes as [|first others].
  - split; [discriminate|]. intros [Hne _]. congruence.
  - rewrite elemwise_shape_run.
    pose proof (existsb_ne_false first others) as Hex.
    destruct (existsb _ others).
    + split; [discriminate|]. intros [_ Hall].
      inversion Hall as [|? ? <- Hothers]; subst.
      apply Hex in Hothers. discriminate.
    + split.
      * intros [= <-]. split; [discriminate|].
        constructor; [reflexivity|]. now apply Hex.
      * intros [_ Hall]. inversion Hall; subst. reflexivity.
Qed.

(** X6. Every layer the constructor returns keeps the input layers it was
    given and has exactly one coefficient per input layer, whether the
    coefficients came as a list or as a single number; called with one
    input per layer, [zip] in [get_output_for] therefore drops no input. *)
Theorem init_one_coeff_per_layer (input_layers : list Layer)
        (arg : ElemwiseSumLayer.coeffs_arg R) self inputs :
  ElemwiseSumLayer.__init__ input_layers arg = Ok self ->
  length inputs = length input_layers ->
  ElemwiseSumLayer.input_layers self = input_layers /\
  length (ElemwiseSumLayer.coeffs self) = length input_layers /\
  map snd (combine (ElemwiseSumLayer.coeffs self) inputs) = inputs.
Proof.
  intros Einit Hlen.
  assert (Hself : ElemwiseSumLayer.input_layers self = input_layers /\
                  length (ElemwiseSumLayer.coeffs self) = length input_layers).
  { unfold ElemwiseSumLayer.__init__ in Einit. destruct arg as [l|c].
    - destruct (Nat.eqb_spec (length l) (length input_layers)) as [E|E];
        cbn [negb bind] in Einit; [|discriminate].
      injection Einit as <-. simpl. auto.
    - cbn [bind] in Einit. injection Einit as <-. simpl.
      now rewrite repeat_length. }
  destruct Hself as [Hlayers Hcoeffs]. split; [exact Hlayers|].
  split; [exact Hcoeffs|]. apply combine_all_inputs. lia.
Qed.

(** X7. The shape method fails on the empty list with [IndexError] and on
    nothing else; it returns [s] exactly for a non-empty list of shapes all
    equal to [s]; and the shapes of two non-empty lists put together are
    accepted exactly when both lists are accepted with the same shape. *)
Theorem elemwise_shape_total self :
  (forall shapes,
     ElemwiseSumLayer.get_output_shape_for self shapes = Raise IndexError
     <-> shapes = []) /\
  (forall shapes s,
     ElemwiseSumLayer.get_output_shape_for self shapes = Ok s
     <-> shapes <> [] /\ Forall (eq s) shapes) /\
  (forall shapes1 shapes2 s,
     shapes1 <> [] -> shapes2 <> [] ->
     (ElemwiseSumLayer.get_output_shape_for self (shapes1 ++ shapes2) = Ok s
      <-> ElemwiseSumLayer.get_output_shape_for self shapes1 = Ok s /\
          ElemwiseSumLayer.get_output_shape_for self shapes2 = Ok s)).
Proof.
  split; [|split].
  - intros [|first others].
    + split; reflexivity.
    + rewrite elemwise_shape_run. split; [|discriminate].
      destruct (existsb _ others); discriminate.
  - intros shapes s. apply elemwise_shape_ok.
  - intros shapes1 shapes2 s Hne1 Hne2. rewrite !elemwise_shape_ok.
    rewrite Forall_app. split.
    + intros [_ [H1 H2]]. auto.
    + intros [[_ H1] [_ H2]]. split; [|auto].
      destruct shapes1; [congruence|discriminate].
Qed.

(** X8. [zip] stops at the shorter of the two lists: the inputs past the
    last coefficient are never read, and the coefficients past the last
    input are never used, whatever the class of the tensors. *)
Theorem elemwise_surplus_ignored (cls : tensor_class) self inputs h :
  (forall surplus,
     length inputs = length (ElemwiseSumLayer.coeffs self) ->
     ElemwiseSumLayer.get_output_for cls self (inputs ++ surplus) h
     = ElemwiseSumLayer.get_output_for cls self inputs h) /\
  (forall surplus,
     length inputs = length (ElemwiseSumLayer.coeffs self) ->
     ElemwiseSumLayer.get_output_for cls
       {| ElemwiseSumLayer.input_layers := ElemwiseSumLayer.input_layers self;
          ElemwiseSumLayer.coeffs := ElemwiseSumLayer.coeffs self ++ surplus |}
       inputs h
     = ElemwiseSumLayer.get_output_for cls self inputs h).
Proof.
  split; intros surplus Hlen; unfold ElemwiseSumLayer.get_output_for;
    cbn [ElemwiseSumLayer.coeffs]; f_equal.
  - rewrite combine_firstn_l, firstn_app, <- Hlen, firstn_all.
    rewrite Nat.sub_diag. simpl. now rewrite app_nil_r.
  - rewrite combine_firstn_r, firstn_app, Hlen, firstn_all.
    rewrite Nat.sub_diag. simpl. now rewrite app_nil_r.
Qed.

End ElemwiseMore.

Section LoopFacts.
Context {R : Type} `{Number R}.
Implicit Types (cls : tensor_class) (h : heap R) (pairs : list (R * ref))
  (output : option ref).

Lemma for_loop_nil cls output h :
  ElemwiseSumLayer.for_loop cls [] output h = (Ok output, h).
Proof. reflexivity. Qed.

Lemma for_loop_cons cls (c : R) (r : ref) pairs output h :
  ElemwiseSumLayer.for_loop cls ((c, r) :: pairs) output h
  = match turn cls c r output h with
    | (Ok o, h2) => ElemwiseSumLayer.for_loop cls pairs (Some o) h2
    | (Raise e, h2) => (Raise e, h2)
    end.
Proof.
  cbn [ElemwiseSumLayer.for_loop]. unfold turn, scaled, added, bindM.
  destruct (ne c one), cls, output as [o|];
    unfold imul, iadd, augmented, bindM, load, alloc, write, ret, raise;
    cbn [cells next extend update];
    try reflexivity;
    try (destruct (tadd _ _); reflexivity).
Qed.

Lemma turn_next cls (c : R) (r : ref) output h :
  (next h <= next (snd (turn cls c r output h)))%nat.
Proof.
  unfold turn, scaled, added.
  destruct (ne c one), cls, output as [o|]; simpl;
    try lia; destruct (tadd _ _); simpl; lia.
Qed.


End LoopFacts.


Lemma in_zipped_refs {A : Type} (xs : list A) (rs : list ref) (r : ref) :
  In r (map snd (combine xs rs)) -> In r rs.
Proof.
  intros Hin. apply in_map_iff in Hin. destruct Hin as ([x r'] & <- & Hin).
  eapply in_combine_r; eauto.
Qed.

Section LoopEffects.
Context {R : Type} `{Number R}.
Implicit Types (cls : tensor_class) (h : heap R) (pairs : list (R * ref))
  (output : option ref).


(** A turn writes to its input, to [output] and to new objects only, and
    binds [output] to one of these. *)
Lemma turn_frame cls (c : R) (r0 : ref) output h (r : ref) :
  (r < next h)%nat -> r <> r0 -> output <> Some r ->
  cells (snd (turn cls c r0 output h)) r = cells h r.
Proof.
  intros Hr Hr0 Hout. unfold turn, scaled, added.
  destruct (ne c one), cls, output as [o|];
    cbn [fst snd cells next extend update];
    try destruct (tadd _ _); cbn [fst snd cells next extend update];
    repeat match goal with
           | |- context [Nat.eqb ?a ?b] => destruct (Nat.eqb_spec a b)
           end;
    try reflexivity; try lia; try congruence.
Qed.

Lemma turn_binding cls (c : R) (r0 : ref) output h (o' : ref) :
  fst (turn cls c r0 output h) = Ok o' ->
  o' = r0 \/ output = Some o' \/ (next h <= o')%nat.
Proof.
  unfold turn, scaled, added.
  destruct (ne c one), cls, output as [o|];
    cbn [fst snd cells next extend update];
    try destruct (tadd _ _); cbn [fst snd cells next extend update];
    intros [= <-]; auto; right; right; lia.
Qed.

Lemma for_loop_frame cls pairs : forall output h (r : ref),
  (r < next h)%nat ->
  ~ In r (map snd pairs) ->
  output <> Some r ->
  cells (snd (ElemwiseSumLayer.for_loop cls pairs output h)) r = cells h r.
Proof.
  induction pairs as [|[c r0] pairs IH]; intros output h r Hr Hnin Hout.
  - reflexivity.
  - rewrite for_loop_cons. simpl in Hnin.
    assert (Hr0 : r <> r0) by (intros ->; apply Hnin; now left).
    assert (Hrest : ~ In r (map snd pairs))
      by (intros Hin; apply Hnin; now right).
    pose proof (turn_frame cls c r0 output h r Hr Hr0 Hout) as Hframe.
    pose proof (turn_next cls c r0 output h) as Hnext.
    pose proof (turn_binding cls c r0 output h) as Hbind.
    destruct (turn cls c r0 output h) as [[o'|e] h2]; simpl in *.
    + rewrite IH; [exact Hframe|lia|exact Hrest|].
      intros [= ->]. destruct (Hbind r eq_refl) as [E|[E|E]];
        [congruence|congruence|lia].
    + exact Hframe.
Qed.


(** On symbolic tensors every multiplication and every addition allocates
    one object, and the last one allocated is the result. *)
Lemma for_loop_symbolic_alloc pairs : forall (o : ref) h (o' : ref) h',
  ElemwiseSumLayer.for_loop Symbolic pairs (Some o) h = (Ok (Some o'), h') ->
  next h' = (next h + multiplied pairs + length pairs)%nat /\
  (pairs = [] /\ o' = o /\ h' = h \/ pairs <> [] /\ S o' = next h').
Proof.
  induction pairs as [|[c r] pairs IH]; intros o h o' h' E.
  - injection E as <- <-. unfold multiplied. simpl. split; [lia|auto].
  - rewrite for_loop_cons in E. unfold turn, scaled, added in E.
    unfold multiplied. cbn [filter fst length].
    destruct (ne c one); cbn [fst snd cells next extend] in E;
      destruct (tadd _ _) as [s|]; cbn [fst snd cells next extend] in E;
      try discriminate;
      (destruct (IH _ _ _ _ E) as [Hn [(-> & -> & ->)|[Hne Hlast]]];
       cbn [next extend length] in *;
       unfold multiplied in Hn; simpl in Hn;
       (split; [simpl; lia|]); right; (split; [discriminate|]);
       simpl; lia).
Qed.

End LoopEffects.

Section ElemwiseEffects.
Context {Layer R : Type} `{Number R}.
Implicit Types (cls : tensor_class) (self : ElemwiseSumLayer.layer Layer R)
  (h : heap R) (inputs : list ref).


(** X10. Whatever the class of the tensors, a call changes no object of
    the store other than its inputs. *)
Theorem elemwise_writes_inputs_only cls self inputs h (r : ref) :
  (r < next h)%nat ->
  ~ In r inputs ->
  cells (snd (ElemwiseSumLayer.get_output_for cls self inputs h)) r
  = cells h r.
Proof.
  intros Hr Hnin. unfold ElemwiseSumLayer.get_output_for.
  apply for_loop_frame; [exact Hr| |discriminate].
  intros Hin. apply Hnin. eapply in_zipped_refs; eauto.
Qed.


(** X12. On symbolic tensors a call that returns a tensor has allocated
    one object for every coefficient that differs from [1] and one for
    every addition, so skipping the multiplication by [1] saves an object
    each time.  The tensor returned is the last object allocated, except
    for a single input with coefficient [1]: then nothing is allocated and
    the input itself is returned. *)
Theorem elemwise_symbolic_allocation self inputs h (out : ref) h' :
  ElemwiseSumLayer.get_output_for Symbolic self inputs h = (Ok (Some out), h') ->
  next h'
  = (next h + multiplied (combine (ElemwiseSumLayer.coeffs self) inputs)
     + (length (combine (ElemwiseSumLayer.coeffs self) inputs) - 1))%nat /\
  ((exists c, combine (ElemwiseSumLayer.coeffs self) inputs = [(c, out)] /\
              ne c one = false /\ h' = h) \/
   S out = next h').
Proof.
  unfold ElemwiseSumLayer.get_output_for.
  destruct (combine (ElemwiseSumLayer.coeffs self) inputs) as [|[c r] pairs].
  { discriminate. }
  rewrite for_loop_cons. unfold turn, scaled, multiplied.
  cbn [filter fst length].
  destruct (ne c one) eqn:Ec; cbn [fst snd]; intros E;
    destruct (for_loop_symbolic_alloc pairs _ _ _ _ E)
      as [Hn [(-> & -> & ->)|[Hne Hlast]]];
    cbn [next extend length] in *; unfold multiplied in Hn; simpl in Hn;
    (split; [simpl; lia|]); auto.
  left. exists c. auto.
Qed.

End ElemwiseEffects.



Section InPlaceValue.
Context {R : Type} `{Number R}.
Implicit Types (h : heap R) (pairs : list (R * ref)).




End InPlaceValue.

Section Composition.
Context {Layer R : Type} `{Number R}.
Implicit Types (self : ElemwiseSumLayer.layer Layer R) (h : heap R)
  (inputs : list ref) (shapes : list shape) (s : shape).


(** X14. Shape inference is sound for the layers the constructor builds:
    when [get_output_shape_for] accepts the shapes of the tensors that the
    inputs hold, one input per layer, [get_output_for] on symbolic tensors
    raises nothing and returns a tensor of the shape inferred. *)
Theorem elemwise_shape_inference_sound (input_layers : list Layer)
        (arg : ElemwiseSumLayer.coeffs_arg R) self inputs h shapes s :
  ElemwiseSumLayer.__init__ input_layers arg = Ok self ->
  length inputs = length input_layers ->
  allocated h inputs ->
  Forall2 (fun r s' => tshape (cells h r) = Some s') inputs shapes ->
  ElemwiseSumLayer.get_output_shape_for self shapes = Ok s ->
  exists out h',
    ElemwiseSumLayer.get_output_for Symbolic self inputs h
    = (Ok (Some out), h') /\
    tshape (cells h' out) = Some s.
Proof.
  intros Einit Hlen Halloc Hshapes Eshape.
  apply elemwise_shape_ok in Eshape. destruct Eshape as [Hne Hall].
  assert (Hcoeffs : length (ElemwiseSumLayer.coeffs self) = length inputs).
  { rewrite Hlen. unfold ElemwiseSumLayer.__init__ in Einit.
    destruct arg as [l|c].
    - destruct (Nat.eqb_spec (length l) (length input_layers)) as [E|E];
        cbn [negb bind] in Einit; [|discriminate].
      now injection Einit as <-.
    - cbn [bind] in Einit. injection Einit as <-. simpl.
      apply repeat_length. }
  assert (Hs : Forall (fun x => tshape x = Some s) (map (cells h) inputs)).
  { clear -Hshapes Hall. induction Hshapes as [|r s' inputs shapes Hr _ IH];
      simpl; constructor.
    - inversion Hall; subst. exact Hr.
    - apply IH. now inversion Hall. }
  assert (Hinputs : map (cells h) inputs <> []).
  { destruct Hshapes; [congruence|discriminate]. }
  destruct (elemwise_symbolic_run self inputs h Halloc)
    as (res & h' & E & _ & _ & Hv).
  destruct (weighted_sum_pointwise (ElemwiseSumLayer.coeffs self)
              (map (cells h) inputs) s Hinputs) as (t & Et & Ht & _).
  { now rewrite length_map. }
  { exact Hs. }
  rewrite Et in Hv. destruct res as [[out|]|e]; simpl in Hv; try discriminate.
  injection Hv as <-. exists out, h'. auto.
Qed.

End Composition.

(** ** The extra properties at concrete inputs *)

(** Shapes [(2,3)] and [(2,4)], last axis. *)
Lemma concat_shape_axis_from_end_witness :
  ConcatLayer.get_output_shape_for
    (ConcatLayer.__init__ [tt; tt] (Z.of_nat 1 - Z.of_nat 2)) [[2; 3]; [2; 4]]
  = ConcatLayer.get_output_shape_for
      (ConcatLayer.__init__ [tt; tt] (Z.of_nat 1)) [[2; 3]; [2; 4]].
Proof.
  apply (concat_shape_axis_from_end [tt; tt] [[2; 3]; [2; 4]] 2 1).
  - lia.
  - repeat constructor.
Defined.

(** [(2,3)] on one side, [(2,4)] and [(2,1)] on the other. *)
Lemma concat_shape_nests_witness :
  ConcatLayer.get_output_shape_for (ConcatLayer.__init__ [tt; tt] 1)
    ([[2; 3]] ++ [[2; 4]; [2; 1]])
  = ConcatLayer.get_output_shape_for (ConcatLayer.__init__ [tt; tt] 1)
      [[2; 3]; [2; 5]] /\
  exists out,
    ConcatLayer.get_output_shape_for (ConcatLayer.__init__ [tt; tt] 1)
      ([[2; 3]] ++ [[2; 4]; [2; 1]]) = Ok out.
Proof.
  apply (proj1 (concat_shape_nests (ConcatLayer.__init__ [tt; tt] 1))
           [[2; 3]] [[2; 4]; [2; 1]] [2; 3] [2; 5]); reflexivity.
Defined.

Lemma concat_shape_counts_entries_witness :
  exists out,
    ConcatLayer.get_output_shape_for (ConcatLayer.__init__ [tt; tt] 1)
      [[2; 3; 5]; [2; 4; 5]] = Ok out /\
    numel out = Py.sum (map numel [[2; 3; 5]; [2; 4; 5]]).
Proof.
  apply (concat_shape_counts_entries (ConcatLayer.__init__ [tt; tt] 1)
           [2; 3; 5] [[2; 4; 5]] 1).
  - reflexivity.
  - constructor; [|constructor]. split; [reflexivity|].
    intros [|[|[|j]]] Hj; try reflexivity. now elim Hj.
Defined.

Lemma concat_shape_any_order_witness :
  ConcatLayer.get_output_shape_for (ConcatLayer.__init__ [tt; tt] 1)
    [[2; 4; 5]; [2; 3; 5]]
  = ConcatLayer.get_output_shape_for (ConcatLayer.__init__ [tt; tt] 1)
      [[2; 3; 5]; [2; 4; 5]].
Proof.
  apply (concat_shape_any_order (ConcatLayer.__init__ [tt; tt] 1)
           [2; 3; 5] [[2; 4; 5]] 1).
  - reflexivity.
  - constructor; [|constructor]. split; [reflexivity|].
    intros [|[|[|j]]] Hj; try reflexivity. now elim Hj.
  - apply perm_swap.
Defined.

Lemma init_one_coeff_per_layer_witness :
  ElemwiseSumLayer.input_layers
    {| ElemwiseSumLayer.input_layers := [tt; tt];
       ElemwiseSumLayer.coeffs := [3; 3] |} = [tt; tt] /\
  length [3; 3] = length [tt; tt] /\
  map snd (combine [3; 3] [0; 1]%nat) = [0; 1]%nat.
Proof.
  apply (init_one_coeff_per_layer [tt; tt] (ElemwiseSumLayer.CoeffScalar 3)
           {| ElemwiseSumLayer.input_layers := [tt; tt];
              ElemwiseSumLayer.coeffs := [3; 3] |} [0; 1]%nat);
    reflexivity.
Defined.

Lemma elemwise_shape_total_witness :
  ElemwiseSumLayer.get_output_shape_for layer_2_1 ([[2; 3]] ++ [[2; 3]])
  = Ok [2; 3]
  <-> ElemwiseSumLayer.get_output_shape_for layer_2_1 [[2; 3]] = Ok [2; 3] /\
      ElemwiseSumLayer.get_output_shape_for layer_2_1 [[2; 3]] = Ok [2; 3].
Proof.
  apply (proj2 (proj2 (elemwise_shape_total layer_2_1))
           [[2; 3]] [[2; 3]] [2; 3]); discriminate.
Defined.

Lemma elemwise_surplus_ignored_witness :
  ElemwiseSumLayer.get_output_for Symbolic layer_2_1 ([0; 1] ++ [0])%nat
    store_AB
  = ElemwiseSumLayer.get_output_for Symbolic layer_2_1 [0; 1]%nat store_AB.
Proof.
  apply (proj1 (elemwise_surplus_ignored Symbolic layer_2_1 [0; 1]%nat
                  store_AB) [0%nat]).
  reflexivity.
Defined.

(** The object [B] when only [A] is passed, with in-place operators. *)
Lemma elemwise_writes_inputs_only_witness :
  cells (snd (ElemwiseSumLayer.get_output_for InPlace layer_2_1 [0%nat]
                store_AB)) 1%nat
  = cells store_AB 1%nat.
Proof.
  apply (elemwise_writes_inputs_only InPlace layer_2_1 [0%nat] store_AB 1%nat).
  - simpl. lia.
  - intros [E|[]]. discriminate.
Defined.


(** One multiplication (by [2]) and one addition: two objects. *)
Lemma elemwise_symbolic_allocation_witness :
  next (snd (ElemwiseSumLayer.get_output_for Symbolic layer_2_1 [0; 1]%nat
               store_AB))
  = (next store_AB
     + multiplied (combine (ElemwiseSumLayer.coeffs layer_2_1) [0; 1])
     + (length (combine (ElemwiseSumLayer.coeffs layer_2_1) [0; 1]) - 1))%nat /\
  ((exists c, combine (ElemwiseSumLayer.coeffs layer_2_1) [0; 1]%nat
              = [(c, 3%nat)] /\
              ne c one = false /\
              snd (ElemwiseSumLayer.get_output_for Symbolic layer_2_1
                     [0; 1]%nat store_AB) = store_AB) \/
   4%nat = next (snd (ElemwiseSumLayer.get_output_for Symbolic layer_2_1
                        [0; 1]%nat store_AB))).
Proof.
  apply (elemwise_symbolic_allocation layer_2_1 [0; 1]%nat store_AB 3%nat
           (snd (ElemwiseSumLayer.get_output_for Symbolic layer_2_1
                   [0; 1]%nat store_AB))).
  reflexivity.
Defined.


Lemma elemwise_shape_inference_sound_witness :
  exists out h',
    ElemwiseSumLayer.get_output_for Symbolic layer_2_1 [0; 1]%nat store_AB
    = (Ok (Some out), h') /\
    tshape (cells h' out) = Some [3].
Proof.
  apply (elemwise_shape_inference_sound [tt; tt]
           (ElemwiseSumLayer.CoeffList [2; 1]) layer_2_1 [0; 1]%nat store_AB
           [[3]; [3]] [3]).
  - reflexivity.
  - reflexivity.
  - repeat constructor.
  - repeat constructor.
  - reflexivity.
Defined.
